(** * AL_Support_Bot: the Telegram webhook relay of [app.py]

    A shallow embedding of [app.py] (a FastAPI application with one webhook
    route) and the properties of its relay pipeline.

    - Python values that come out of [json()] are the inductive [pyval];
      a [str] is its sequence of Unicode code points.
    - Python exceptions are the error side of [Result].
    - The two outbound HTTP calls are answered by a [World], an oracle that
      sees the calls issued so far; the handler runs in a monad that logs
      every call it issues. *)

From Stdlib Require Import List ZArith NArith Bool Ascii String Lia.
From Stdlib Require Import DecimalString.
From Stdlib Require Floats.SpecFloat.
From ExtLib Require Import Structures.Monad Structures.MonadExc.
Import ListNotations.
Import MonadNotation.
Local Open Scope monad_scope.
Local Open Scope list_scope.

(* ===================================================================== *)
(** ** Python strings *)
(* ===================================================================== *)

(** A Python [str]: the list of its code points. *)
Definition pystr := list N.

Definition pystr_eqb (a b : pystr) : bool :=
  if list_eq_dec N.eq_dec a b then true else false.

(** Bytes of a Rocq string literal. *)
Definition bytes_of (s : string) : list N :=
  map N_of_ascii (list_ascii_of_string s).

(** UTF-8 decoding of the bytes of a source literal: [need] continuation
    bytes are still expected for the code point accumulated in [acc]. *)
Fixpoint utf8_decode (bs : list N) (need : nat) (acc : N) : pystr :=
  match bs with
  | [] => []
  | b :: rest =>
      match need with
      | O =>
          if (b <? 128)%N then b :: utf8_decode rest 0 0%N
          else if (b <? 224)%N then utf8_decode rest 1 (b - 192)%N
          else if (b <? 240)%N then utf8_decode rest 2 (b - 224)%N
          else utf8_decode rest 3 (b - 240)%N
      | S O => (acc * 64 + (b - 128))%N :: utf8_decode rest 0 0%N
      | S n => utf8_decode rest n (acc * 64 + (b - 128))%N
      end
  end.

(** The only escape sequence the literals of [app.py] use is [\n]. *)
Fixpoint unescape (s : pystr) : pystr :=
  match s with
  | [] => []
  | c :: rest =>
      match rest with
      | d :: r =>
          if ((c =? 92) && (d =? 110))%N then 10%N :: unescape r
          else c :: unescape rest
      | [] => [c]
      end
  end.

(** A string literal of the source, as the [str] Python builds from it. *)
Definition lit (s : string) : pystr := unescape (utf8_decode (bytes_of s) 0 0%N).
Arguments lit s%_string : simpl never.

(** [str(n)] for an [int]. *)
Definition str_int (z : Z) : pystr :=
  bytes_of (NilZero.string_of_int (Z.to_int z)).

(** [c.isspace()]: the code points [str.strip()] removes. *)
Definition isspace (c : N) : bool :=
  (((9 <=? c) && (c <=? 13)) || ((28 <=? c) && (c <=? 32))
   || (c =? 133) || (c =? 160) || (c =? 5760)
   || ((8192 <=? c) && (c <=? 8202))
   || (c =? 8232) || (c =? 8233) || (c =? 8239) || (c =? 8287)
   || (c =? 12288))%N.

Fixpoint lstrip (s : pystr) : pystr :=
  match s with
  | c :: rest => if isspace c then lstrip rest else s
  | [] => []
  end.

(** [s.strip()] *)
Definition strip (s : pystr) : pystr := rev (lstrip (rev (lstrip s))).

Fixpoint startswith (s p : pystr) : bool :=
  match p, s with
  | [], _ => true
  | a :: p', b :: s' => (a =? b)%N && startswith s' p'
  | _ :: _, [] => false
  end.

(** [needle in s] for two strings. *)
Fixpoint str_contains (s needle : pystr) : bool :=
  startswith s needle
  || match s with
     | [] => false
     | _ :: s' => str_contains s' needle
     end.

(* ===================================================================== *)
(** ** Python values and exceptions *)
(* ===================================================================== *)

(** What [json()] returns.  A [dict] keeps its insertion order. *)
#[warnings="-register-all"]
Inductive pyval : Type :=
| PyNone
| PyBool (b : bool)
| PyInt (z : Z)
| PyFloat (f : SpecFloat.spec_float)
| PyStr (s : pystr)
| PyList (l : list pyval)
| PyDict (d : list (pystr * pyval)).

Fixpoint dict_get {V : Type} (d : list (pystr * V)) (k : pystr) : option V :=
  match d with
  | [] => None
  | (k', v) :: d' => if pystr_eqb k' k then Some v else dict_get d' k
  end.

(** [d[k] = v] *)
Fixpoint dict_set {V : Type} (d : list (pystr * V)) (k : pystr) (v : V)
  : list (pystr * V) :=
  match d with
  | [] => [(k, v)]
  | (k', v') :: d' =>
      if pystr_eqb k' k then (k', v) :: d' else (k', v') :: dict_set d' k v
  end.

(** Truth value testing, as [or], [not] and [if] apply it. *)
Definition truthy (v : pyval) : bool :=
  match v with
  | PyNone => false
  | PyBool b => b
  | PyInt z => negb (z =? 0)%Z
  | PyFloat (SpecFloat.S754_zero _) => false
  | PyFloat _ => true
  | PyStr [] | PyList [] | PyDict [] => false
  | PyStr _ | PyList _ | PyDict _ => true
  end.

(** An [httpx.Response]: [json_content] is what [r.json()] parses the body
    to, [None] when the body is not JSON. *)
Record Response : Type := mkResponse {
  status_code : Z;
  text : pystr;
  json_content : option pyval
}.

(** The exceptions the handler can meet.  All are subclasses of
    [Exception]; only [HTTPStatusError] is one of [httpx.HTTPStatusError].
    [TransportError] stands for what [client.post] raises when no response
    arrives (connection failure, timeout). *)
Inductive Exception : Type :=
| HTTPStatusError (response : Response)
| TransportError (detail : pystr)
| JSONDecodeError
| KeyError (key : pyval)
| IndexError
| TypeError
| AttributeError
| ValueError.

Inductive Result (A : Type) : Type :=
| Return (a : A)
| Raise (e : Exception).
Arguments Return {A} a.
Arguments Raise {A} e.

Definition Result_bind {A B : Type} (r : Result A) (k : A -> Result B)
  : Result B :=
  match r with
  | Return a => k a
  | Raise e => Raise e
  end.

#[global] Instance Monad_Result : Monad Result :=
  {| ret := @Return; bind := @Result_bind |}.

(** [v.get(k, default)] *)
Definition py_get (v : pyval) (k : pystr) (default : pyval) : Result pyval :=
  match v with
  | PyDict d =>
      match dict_get d k with
      | Some x => Return x
      | None => Return default
      end
  | _ => Raise AttributeError
  end.

(** [v[k]] for a string [k] *)
Definition py_getitem (v : pyval) (k : pystr) : Result pyval :=
  match v with
  | PyDict d =>
      match dict_get d k with
      | Some x => Return x
      | None => Raise (KeyError (PyStr k))
      end
  | _ => Raise TypeError
  end.

(** [v[0]] *)
Definition py_getitem0 (v : pyval) : Result pyval :=
  match v with
  | PyList (x :: _) => Return x
  | PyList [] => Raise IndexError
  | PyStr (c :: _) => Return (PyStr [c])
  | PyStr [] => Raise IndexError
  | PyDict d => Raise (KeyError (PyInt 0))
  | _ => Raise TypeError
  end.

(** [k in v] for a string [k] *)
Definition py_in (k : pystr) (v : pyval) : Result bool :=
  match v with
  | PyDict d =>
      Return (match dict_get d k with Some _ => true | None => false end)
  | PyList l =>
      Return (existsb
                (fun x => match x with PyStr s => pystr_eqb s k | _ => false end)
                l)
  | PyStr s => Return (str_contains s k)
  | _ => Raise TypeError
  end.

(** [v.strip()] *)
Definition py_strip (v : pyval) : Result pystr :=
  match v with
  | PyStr s => Return (strip s)
  | _ => Raise AttributeError
  end.

(** [template.format(k1=v1, ...)] for a template whose replacement fields are
    keyword names, as those of [PROMPT_TEMPLATE] are.  [field] holds the
    (reversed) name of the field being read, once a brace has opened it;
    a doubled brace is a literal brace. *)
Fixpoint str_format (template : pystr) (field : option pystr)
  (kwargs : list (pystr * pystr)) : Result pystr :=
  match template with
  | [] =>
      match field with
      | None => Return []
      | Some _ => Raise ValueError
      end
  | c :: rest =>
      match field with
      | None =>
          if (c =? 123)%N then
            match rest with
            | d :: rest' =>
                if (d =? 123)%N then
                  out <- str_format rest' None kwargs ;; ret (c :: out)
                else str_format rest (Some []) kwargs
            | [] => Raise ValueError
            end
          else if (c =? 125)%N then
            match rest with
            | d :: rest' =>
                if (d =? 125)%N then
                  out <- str_format rest' None kwargs ;; ret (c :: out)
                else Raise ValueError
            | [] => Raise ValueError
            end
          else out <- str_format rest None kwargs ;; ret (c :: out)
      | Some name =>
          if (c =? 125)%N then
            match name with
            | [] => Raise IndexError
            | _ :: _ =>
                match dict_get kwargs (rev name) with
                | Some v => out <- str_format rest None kwargs ;; ret (v ++ out)
                | None => Raise (KeyError (PyStr (rev name)))
                end
            end
          else str_format rest (Some (c :: name)) kwargs
      end
  end.

(* ===================================================================== *)
(** ** Module-level constants of [app.py] *)
(* ===================================================================== *)

(** The three variables read from [os.environ] when the module is loaded. *)
Record Environ : Type := mkEnviron {
  TELEGRAM_TOKEN : pystr;
  GEMINI_KEY : pystr;
  WEBHOOK_SECRET : pystr
}.

Definition TELEGRAM_API (env : Environ) : pystr :=
  lit "https://api.telegram.org/bot" ++ TELEGRAM_TOKEN env.

Definition GEMINI_URL : pystr :=
  lit "https://generativelanguage.googleapis.com/v1beta/models/gemini-2.5-flash:generateContent".

Definition COMMANDS_TEXT : pystr :=
  lit "/quiz [subject] [topic] [n] — Generate exam-style questions with feedback.\n"
  ++ lit "/flashcards [subject] [topic] [count] — Key concept flashcards.\n"
  ++ lit "/practice [subject] [topic] [time] — Mini exam with marking scheme.\n"
  ++ lit "/drill [subject] [topic] [level] — Adaptive drills adjusting difficulty.\n"
  ++ lit "/check [solution] — Mark mistakes, explain corrections.\n"
  ++ lit "/strategy [subject/topic] — Revision strategy and weak area analysis.\n"
  ++ lit "/progress — Session progress report.\n"
  ++ lit "/stats — Accuracy and performance stats.\n"
  ++ lit "/leaderboard — Compare scores with group/self.\n"
  ++ lit "/preset [exam/paper] — Load paper-style formats.\n"
  ++ lit "/socratic on|off — Toggle questioning.\n"
  ++ lit "/hint [1|2|3] — Set hint depth.\n"
  ++ lit "/save — Export progress code.\n"
  ++ lit "/load [code] — Import saved session.\n"
  ++ lit "/redo — Repeat last activity with new variations.\n"
  ++ lit "/next — Auto-pick next recommended task.\n"
  ++ lit "/random [n] — Generate random mix of questions.\n"
  ++ lit "/simple on|off — Toggle simpler language and shorter math solutions (off by default).\n"
  ++ lit "/lang [en|si|ta] — Switch language (forced English output regardless).\n"
  ++ lit "/help — Show all commands and examples.".

Definition FOOTER : pystr :=
  lit "\n---\n**Developed by Senula Akarsha ✅**\n---".

Definition SYSTEM_INSTRUCTIONS : pystr :=
  lit "You are an Advanced Level (A/L) multi-subject tutor (Mathematics, Physics, Chemistry, Biology). "
  ++ lit "Respond ONLY to educational topics; if non-educational, refuse politely in BOTH English and Sinhala and redirect to study topics.\n\n"
  ++ lit "STYLE:\n"
  ++ lit "- Restate the question simply.\n"
  ++ lit "- Provide a short 'Plan' before solving.\n"
  ++ lit "- Solve step by step; track units/significant figures; include checks and a TL;DR.\n"
  ++ lit "- Teach exam tricks and common mistakes.\n\n"
  ++ lit "SUBJECT RULES:\n"
  ++ lit "- Math/Physics/Chemistry: formulas and units preserved; show steps.\n"
  ++ lit "- Biology: process explanations step by step.\n"
  ++ lit "- Programming: full code with comments + example output.\n"
  ++ lit "- Writing/History: outline + key evidence.\n\n"
  ++ lit "LANGUAGE:\n"
  ++ lit "- Always produce BOTH English and Sinhala full answers.\n"
  ++ lit "- Use Sri Lankan A/L textbook Sinhala for scientific terms (e.g., atom=පරමාණුව, molecule=අනුව, nucleus=න්‍යෂ්ටිය, "
  ++ lit "atomic number=පරමාණුක ක්‍රමාංකය, mass number=ස්කන්ධ ක්‍රමාංකය, solvent=ද්‍රාවකය, catalyst=උත්ප්‍රේරකය, diffraction=විවර්තනය). "
  ++ lit "Preserve formulas/symbols/units exactly.\n\n"
  ++ lit "FILES & OCR:\n"
  ++ lit "- If text seems from a scan, be STRICT: do not guess unclear parts; return transcript, mark low-confidence, ask to confirm, offer scan tips.\n"
  ++ lit "- For diagrams: describe what is visible; list missing labels and ask for them.\n\n"
  ++ lit "INTERACTIVITY:\n"
  ++ lit "- Support quizzes, flashcards, practice, drills, checks, strategy, stats, progress, /socratic, /hint, /simple.\n\n"
  ++ lit "OUTPUT WRAPPER (MANDATORY):\n"
  ++ lit "**Answer (English):**\n<full English explanation>\n\n"
  ++ lit "**Answer (Sinhala):**\n<full Sinhala explanation with A/L textbook terminology>\n\n"
  ++ lit "After that, append this command list and footer EXACTLY:\n"
  ++ (COMMANDS_TEXT ++ lit "\n")
  ++ (FOOTER ++ lit "\n").

Definition PROMPT_TEMPLATE : pystr :=
  lit "{system}\n\n"
  ++ lit "User question:\n{user}\n\n"
  ++ lit "Remember:\n"
  ++ lit "- Restate the question simply.\n"
  ++ lit "- Provide a short Plan.\n"
  ++ lit "- Solve with clear steps, units, and checks; add TL;DR and exam tips.\n"
  ++ lit "- If non-educational, refuse politely in both English and Sinhala and redirect to learning.\n"
  ++ lit "- Return BOTH English and Sinhala sections exactly as specified, then append commands and the footer.".

(** The text substituted for an empty completion (lines 121-125). *)
Definition FALLBACK_TEXT : pystr :=
  lit "**Answer (English):**\nSorry, I couldn't generate a response.\n\n"
  ++ lit "**Answer (Sinhala):**\nකණගාටුයි, පිළිතුරක් ලබා දිය නොහැකි විය.\n\n"
  ++ (COMMANDS_TEXT ++ FOOTER).

(** The two acknowledgments of the webhook route. *)
Definition ACK_OK : pyval := PyDict [(lit "ok", PyBool true)].

Definition ACK_BAD_SECRET : pyval :=
  PyDict [(lit "ok", PyBool false); (lit "error", PyStr (lit "bad secret"))].

(** The [float] written [0.2]: the double 0x3FC999999999999A. *)
Definition float_0_2 : SpecFloat.spec_float :=
  SpecFloat.S754_finite false 7205759403792794 (-55).

(* ===================================================================== *)
(** ** Outbound calls and the handler's monad *)
(* ===================================================================== *)

(** One [client.post(url, headers=..., json=...)] of an
    [httpx.AsyncClient(timeout=...)]. *)
Record Call : Type := mkCall {
  url : pystr;
  headers : list (pystr * pystr);
  json : pyval;
  timeout : Z
}.

(** The outbound calls issued so far, oldest first. *)
Definition Trace := list Call.

(** What awaiting [client.post] gives: a response, whatever its status,
    or an exception because none arrived. *)
Inductive Outcome : Type :=
| Responds (r : Response)
| Fails (detail : pystr).

(** The services behind the two URLs.  Their answer may depend on every
    call issued before, so a replayed call need not get the same answer. *)
Definition World := Trace -> Call -> Outcome.

(** A computation that may issue calls and may raise. *)
Definition M (A : Type) : Type := Trace -> Result A * Trace.

Definition M_ret {A : Type} (a : A) : M A := fun tr => (Return a, tr).

Definition M_bind {A B : Type} (m : M A) (k : A -> M B) : M B :=
  fun tr =>
    match m tr with
    | (Return a, tr') => k a tr'
    | (Raise e, tr') => (Raise e, tr')
    end.

Definition M_raise {A : Type} (e : Exception) : M A := fun tr => (Raise e, tr).

(** [try: body / except ... as e: handler e] *)
Definition M_catch {A : Type} (body : M A) (handler : Exception -> M A) : M A :=
  fun tr =>
    match body tr with
    | (Return a, tr') => (Return a, tr')
    | (Raise e, tr') => handler e tr'
    end.

#[global] Instance Monad_M : Monad M :=
  {| ret := @M_ret; bind := @M_bind |}.

#[global] Instance MonadExc_M : MonadExc Exception M :=
  {| raise := @M_raise; catch := @M_catch |}.

(** A pure Python expression evaluated inside a handler. *)
Definition lift {A : Type} (r : Result A) : M A := fun tr => (r, tr).

(** [await client.post(...)] *)
Definition post (world : World) (c : Call) : M Response :=
  fun tr =>
    match world tr c with
    | Responds r => (Return r, tr ++ [c])
    | Fails detail => (Raise (TransportError detail), tr ++ [c])
    end.

(** [r.raise_for_status()] *)
Definition raise_for_status (r : Response) : M unit :=
  if ((200 <=? status_code r) && (status_code r <? 300))%Z then ret tt
  else raise (HTTPStatusError r).

(** [r.json()] and [await req.json()] *)
Definition parse_json (content : option pyval) : Result pyval :=
  match content with
  | Some v => Return v
  | None => Raise JSONDecodeError
  end.

(** A [fastapi.Request]: [body_json] is what its body parses to. *)
Record Request : Type := mkRequest { body_json : option pyval }.

(** What the HTTP layer answers to the caller of a route: the returned
    value as a 200 response, or 500 when the route function raised. *)
Record HttpReply : Type := mkReply {
  status : Z;
  content : option pyval
}.

(* ===================================================================== *)
(** ** The functions of [app.py] *)
(* ===================================================================== *)

(** Line 94, up to its last [get]:
    [data.get("candidates", [{}])[0].get("content", {}).get("parts", [{}])[0].get("text", "")] *)
Definition first_text_part (data : pyval) : Result pyval :=
  candidates <- py_get data (lit "candidates") (PyList [PyDict []]) ;;
  candidate <- py_getitem0 candidates ;;
  content <- py_get candidate (lit "content") (PyDict []) ;;
  parts <- py_get content (lit "parts") (PyList [PyDict []]) ;;
  part <- py_getitem0 parts ;;
  py_get part (lit "text") (PyStr []).

(** Line 94: the first text part, stripped. *)
Definition extract_text (data : pyval) : Result pystr :=
  t <- first_text_part data ;;
  py_strip t.

(** Line 109: [update.get("message") or update.get("edited_message")] *)
Definition select_message (update : pyval) : Result pyval :=
  m <- py_get update (lit "message") PyNone ;;
  if truthy m then ret m else py_get update (lit "edited_message") PyNone.

(** The [body] of [gemini_generate] and the call that posts it. *)
Definition gemini_body (prompt_text : pystr) : pyval :=
  PyDict
    [(lit "contents",
       PyList [PyDict [(lit "parts", PyList [PyDict [(lit "text", PyStr prompt_text)]])]]);
     (lit "generationConfig", PyDict [(lit "temperature", PyFloat float_0_2)])].

(** The [payload] of [telegram_send]. *)
Definition send_payload (chat_id : pyval) (text : pystr) (reply_to : pyval)
  : list (pystr * pyval) :=
  let payload :=
    [(lit "chat_id", chat_id); (lit "text", PyStr text);
     (lit "parse_mode", PyStr (lit "Markdown"))] in
  if truthy reply_to then dict_set payload (lit "reply_to_message_id") reply_to
  else payload.

Section App.

Variable env : Environ.
(** [str(e)], as [f"Error: {e}"] renders an exception. *)
Variable describe : Exception -> pystr.
Variable world : World.

Definition gemini_call (prompt_text : pystr) : Call :=
  {| url := GEMINI_URL;
     headers := [(lit "x-goog-api-key", GEMINI_KEY env);
                 (lit "content-type", lit "application/json")];
     json := gemini_body prompt_text;
     timeout := 60 |}.

Definition send_call (chat_id : pyval) (text : pystr) (reply_to : pyval) : Call :=
  {| url := TELEGRAM_API env ++ lit "/sendMessage";
     headers := [];
     json := PyDict (send_payload chat_id text reply_to);
     timeout := 20 |}.

Definition gemini_generate (prompt_text : pystr) : M pystr :=
  r <- post world (gemini_call prompt_text) ;;
  raise_for_status r ;;
  data <- lift (parse_json (json_content r)) ;;
  lift (extract_text data).

Definition telegram_send (chat_id : pyval) (text : pystr) (reply_to : pyval)
  : M unit :=
  post world (send_call chat_id text reply_to) ;;
  ret tt.

(** The protected block of [webhook] (lines 117-132), for the chat id,
    message id and stripped text that lines 113-115 extracted. *)
Definition relay (chat_id mid : pyval) (user_text : pystr) : M pyval :=
  catch
    (prompt <- lift (str_format PROMPT_TEMPLATE None
                       [(lit "system", SYSTEM_INSTRUCTIONS);
                        (lit "user", user_text)]) ;;
     out <- gemini_generate prompt ;;
     let out := match out with [] => FALLBACK_TEXT | _ :: _ => out end in
     telegram_send chat_id out mid)
    (fun e =>
       match e with
       | HTTPStatusError r =>
           telegram_send chat_id
             (lit "API error: " ++ str_int (status_code r)
              ++ lit " – " ++ text r)
             mid
       | _ => telegram_send chat_id (lit "Error: " ++ describe e) mid
       end) ;;
  ret ACK_OK.

Definition webhook (secret : pystr) (req : Request) : M pyval :=
  if negb (pystr_eqb secret (WEBHOOK_SECRET env)) then ret ACK_BAD_SECRET
  else
    update <- lift (parse_json (body_json req)) ;;
    msg <- lift (select_message update) ;;
    no_text <- (if negb (truthy msg) then ret true
                else has <- lift (py_in (lit "text") msg) ;; ret (negb has)) ;;
    if no_text : bool then ret ACK_OK
    else
      chat <- lift (py_getitem msg (lit "chat")) ;;
      chat_id <- lift (py_getitem chat (lit "id")) ;;
      mid <- lift (py_getitem msg (lit "message_id")) ;;
      t <- lift (py_getitem msg (lit "text")) ;;
      user_text <- lift (py_strip t) ;;
      relay chat_id mid user_text.

Definition health : pyval := PyDict [(lit "status", PyStr (lit "ok"))].

(** The route [POST /telegram/{secret}] as its caller sees it. *)
Definition post_telegram (secret : pystr) (req : Request) (tr : Trace)
  : HttpReply * Trace :=
  match webhook secret req tr with
  | (Return v, tr') => ({| status := 200; content := Some v |}, tr')
  | (Raise _, tr') => ({| status := 500; content := None |}, tr')
  end.

(** The application serving a sequence of webhook requests. *)
Fixpoint serve (reqs : list (pystr * Request)) (tr : Trace)
  : list HttpReply * Trace :=
  match reqs with
  | [] => ([], tr)
  | (secret, req) :: rest =>
      let (reply, tr1) := post_telegram secret req tr in
      let (replies, tr2) := serve rest tr1 in
      (reply :: replies, tr2)
  end.

End App.

(* ===================================================================== *)
(** ** Vocabulary of the properties *)
(* ===================================================================== *)

(** The string line 118 evaluates to for a given user text. *)
Definition rendered_prompt (user_text : pystr) : pystr :=
  SYSTEM_INSTRUCTIONS ++ lit "\n\n"
  ++ lit "User question:\n" ++ user_text ++ lit "\n\n"
  ++ lit "Remember:\n"
  ++ lit "- Restate the question simply.\n"
  ++ lit "- Provide a short Plan.\n"
  ++ lit "- Solve with clear steps, units, and checks; add TL;DR and exam tips.\n"
  ++ lit "- If non-educational, refuse politely in both English and Sinhala and redirect to learning.\n"
  ++ lit "- Return BOTH English and Sinhala sections exactly as specified, then append commands and the footer.".

(** A well-formed text update: the message the handler selects is an
    object with a string [text], a [chat] object with an [id], and a
    [message_id]. *)
Definition text_update (update chat_id mid : pyval) (t : pystr) : Prop :=
  exists msg chat,
    select_message update = Return (PyDict msg)
    /\ dict_get msg (lit "text") = Some (PyStr t)
    /\ dict_get msg (lit "chat") = Some (PyDict chat)
    /\ dict_get chat (lit "id") = Some chat_id
    /\ dict_get msg (lit "message_id") = Some mid.



(** The text the [except] clauses of [webhook] report for an exception. *)
Definition error_report (describe : Exception -> pystr) (e : Exception) : pystr :=
  match e with
  | HTTPStatusError r =>
      lit "API error: " ++ str_int (status_code r) ++ lit " – " ++ text r
  | _ => lit "Error: " ++ describe e
  end.

(** What is sent for a completion [out]. *)
Definition reply_text (out : pystr) : pystr :=
  match out with
  | [] => FALLBACK_TEXT
  | _ :: _ => out
  end.

(** A string made of whitespace only; the empty string is one. *)
Definition blank (s : pystr) : Prop := forallb isspace s = true.

(** The URL a send goes to. *)
Definition send_url (env : Environ) : pystr :=
  TELEGRAM_API env ++ lit "/sendMessage".

(** The messaging platform answers every send issued after history [h]. *)
Definition accepts_sends (env : Environ) (world : World) (h : Trace) : Prop :=
  forall c, url c = send_url env -> exists r, world h c = Responds r.



(* ===================================================================== *)
(** ** Sample data *)
(* ===================================================================== *)

Definition sample_env : Environ :=
  {| TELEGRAM_TOKEN := lit "123456:ABC-DEF";
     GEMINI_KEY := lit "AIza-sample";
     WEBHOOK_SECRET := lit "s3cret" |}.

Definition sample_describe (e : Exception) : pystr :=
  match e with
  | TransportError detail => detail
  | HTTPStatusError _ => lit "HTTPStatusError"
  | JSONDecodeError => lit "Expecting value: line 1 column 1 (char 0)"
  | KeyError _ => lit "KeyError"
  | IndexError => lit "list index out of range"
  | TypeError => lit "TypeError"
  | AttributeError => lit "AttributeError"
  | ValueError => lit "ValueError"
  end.

Definition text_message (chat_id mid : Z) (t : pystr) : pyval :=
  PyDict [(lit "message_id", PyInt mid);
          (lit "chat", PyDict [(lit "id", PyInt chat_id); (lit "type", PyStr (lit "private"))]);
          (lit "text", PyStr t)].

(** A new text message from chat 42 with message id 7. *)
Definition sample_update : pyval :=
  PyDict [(lit "update_id", PyInt 1001);
          (lit "message", text_message 42 7 (lit " What is photosynthesis? "))].

Definition sample_request : Request := {| body_json := Some sample_update |}.

(** A sticker: a message without text. *)
Definition sticker_update : pyval :=
  PyDict [(lit "update_id", PyInt 1002);
          (lit "message",
            PyDict [(lit "message_id", PyInt 8);
                    (lit "chat", PyDict [(lit "id", PyInt 42)]);
                    (lit "sticker", PyDict [(lit "emoji", PyStr (lit "👍"))])])].

(** A message with text and nothing else. *)
Definition bare_text_update : pyval :=
  PyDict [(lit "message", PyDict [(lit "text", PyStr (lit "hi"))])].

(** A text message whose identifier is 0. *)
Definition zero_id_update : pyval :=
  PyDict [(lit "message", text_message 42 0 (lit "hi"))].

(** Both variants at once. *)
Definition both_variants_update : pyval :=
  PyDict [(lit "message", text_message 42 7 (lit "new"));
          (lit "edited_message", text_message 42 5 (lit "old"))].

(** The provider's payload carrying one text part. *)
Definition completion_payload (t : pystr) : pyval :=
  PyDict [(lit "candidates",
            PyList [PyDict [(lit "content",
              PyDict [(lit "parts", PyList [PyDict [(lit "text", PyStr t)]]);
                      (lit "role", PyStr (lit "model"))])]])].

(** A payload whose candidate has content but no parts. *)
Definition truncated_candidate : list (pystr * pyval) :=
  [(lit "content", PyDict [(lit "role", PyStr (lit "model"))]);
   (lit "finishReason", PyStr (lit "MAX_TOKENS"))].

Definition truncated_payload : list (pystr * pyval) :=
  [(lit "candidates", PyList [PyDict truncated_candidate])].

Definition platform_ok : Response :=
  {| status_code := 200; text := lit "{}"; json_content := Some (PyDict []) |}.

(** The provider completes with [t]; the platform accepts every send. *)
Definition world_completing (t : pystr) : World :=
  fun _ c =>
    if pystr_eqb (url c) GEMINI_URL then
      Responds {| status_code := 200; text := t;
                  json_content := Some (completion_payload t) |}
    else Responds platform_ok.

(** The provider answers 429; the platform accepts every send. *)
Definition world_rate_limited : World :=
  fun _ c =>
    if pystr_eqb (url c) GEMINI_URL then
      Responds {| status_code := 429; text := lit "rate limited";
                  json_content := None |}
    else Responds platform_ok.

(** The provider completes with [t]; the platform loses the first send it
    is asked for and accepts the later ones. *)
Definition world_losing_first_send (t : pystr) : World :=
  fun h c =>
    if pystr_eqb (url c) GEMINI_URL then
      Responds {| status_code := 200; text := t;
                  json_content := Some (completion_payload t) |}
    else
      match h with
      | [_] => Fails (lit "timed out")
      | _ => Responds platform_ok
      end.

(** No service can be reached: every call fails. *)
Definition world_offline : World :=
  fun _ _ => Fails (lit "All connection attempts failed").

(** A call the application is written to issue: the completion request
    for some prompt, or a send for some chat, text and reply-to. *)
Definition known_call (env : Environ) (c : Call) : Prop :=
  (exists p, c = gemini_call env p)
  \/ (exists chat_id txt reply_to, c = send_call env chat_id txt reply_to).

(** A text message whose text is blank. *)
Definition blank_text_update : pyval :=
  PyDict [(lit "message", text_message 42 9 (lit "  \n "))].

(** A message whose [text] is [null]. *)
Definition null_text_update : pyval :=
  PyDict [(lit "message",
            PyDict [(lit "message_id", PyInt 10);
                    (lit "chat", PyDict [(lit "id", PyInt 42)]);
                    (lit "text", PyNone)])].

(** An update whose [message] is a number. *)
Definition number_message_update : pyval :=
  PyDict [(lit "message", PyInt 5)].

(** The provider answers 200 with no candidate; the platform accepts
    every send. *)
Definition world_no_candidate : World :=
  fun _ c =>
    if pystr_eqb (url c) GEMINI_URL then
      Responds {| status_code := 200; text := lit "{}";
                  json_content := Some (PyDict [(lit "candidates", PyList [])]) |}
    else Responds platform_ok.

(** What the platform answers to a text it cannot parse. *)
Definition platform_bad_request : Response :=
  {| status_code := 400;
     text := lit "Bad Request: can't parse entities";
     json_content := Some (PyDict [(lit "ok", PyBool false)]) |}.

(** The provider completes with [t]; the platform answers every send
    with status 400. *)
Definition world_rejecting_sends (t : pystr) : World :=
  fun _ c =>
    if pystr_eqb (url c) GEMINI_URL then
      Responds {| status_code := 200; text := t;
                  json_content := Some (completion_payload t) |}
    else Responds platform_bad_request.

(** The fields lines 113-115 read from a message [m]. *)
Definition message_fields (m chat_id mid : pyval) (t : pystr) : Prop :=
  exists msg chat,
    m = PyDict msg
    /\ dict_get msg (lit "text") = Some (PyStr t)
    /\ dict_get msg (lit "chat") = Some (PyDict chat)
    /\ dict_get chat (lit "id") = Some chat_id
    /\ dict_get msg (lit "message_id") = Some mid.

(** The provider answers 429 and the platform cannot be reached. *)
Definition world_platform_down : World :=
  fun _ c =>
    if pystr_eqb (url c) GEMINI_URL then
      Responds {| status_code := 429; text := lit "rate limited";
                  json_content := None |}
    else Fails (lit "All connection attempts failed").

(* ===================================================================== *)
(** ** Tactics *)
(* ===================================================================== *)

(** Runs the monadic operations of a handler on its trace. *)
Ltac run :=
  cbn [bind ret raise catch Monad_M Monad_Result MonadExc_M
       M_bind M_ret M_raise M_catch Result_bind lift negb].


(** Evaluates line 94 with the fields the context knows. *)
Ltac extract_with_fields :=
  unfold extract_text, first_text_part, py_get;
  repeat (match goal with
          | H : dict_get _ _ = _ |- _ => rewrite H
          end;
          cbn [bind ret Monad_Result Result_bind py_getitem0]);
  reflexivity.

(* ===================================================================== *)
(** ** Properties *)
(* ===================================================================== *)

(* ------------------------------------------------------------------ *)
(** *** Strings and the prompt *)

Lemma pystr_eqb_refl (s : pystr) : pystr_eqb s s = true.
Proof. unfold pystr_eqb. destruct (list_eq_dec N.eq_dec s s); congruence. Qed.

Lemma pystr_eqb_eq (a b : pystr) : pystr_eqb a b = true <-> a = b.
Proof.
  unfold pystr_eqb. destruct (list_eq_dec N.eq_dec a b); split; congruence.
Qed.

Lemma pystr_eqb_neq (a b : pystr) : a <> b -> pystr_eqb a b = false.
Proof.
  unfold pystr_eqb. destruct (list_eq_dec N.eq_dec a b); congruence.
Qed.

Lemma prompt_renders (user_text : pystr) :
  str_format PROMPT_TEMPLATE None
    [(lit "system", SYSTEM_INSTRUCTIONS); (lit "user", user_text)]
  = Return (rendered_prompt user_text).
Proof.
  unfold rendered_prompt. generalize SYSTEM_INSTRUCTIONS. intro system.
  vm_compute. reflexivity.
Qed.


(* ------------------------------------------------------------------ *)
(** *** Guards and extraction (lines 105-115) *)

Lemma text_update_truthy msg k (v : pyval) :
  dict_get msg k = Some v -> truthy (PyDict msg) = true.
Proof. destruct msg; [discriminate | reflexivity]. Qed.

Lemma webhook_on_text_update env describe world secret req tr u chat_id mid t :
  secret = WEBHOOK_SECRET env ->
  body_json req = Some u ->
  text_update u chat_id mid t ->
  webhook env describe world secret req tr
  = relay env describe world chat_id mid (strip t) tr.
Proof.
  intros -> Hb (msg & chat & Hsel & Ht & Hc & Hid & Hm).
  unfold webhook. rewrite pystr_eqb_refl. cbn [negb]. rewrite Hb.
  cbn [parse_json]. run. rewrite Hsel.
  rewrite (text_update_truthy _ _ _ Ht). cbn [negb]. run.
  unfold py_in, py_getitem. rewrite Ht, Hc, Hm. run. rewrite Hid. run.
  reflexivity.
Qed.


Lemma webhook_reads_selected_message env describe world secret u1 u2 tr :
  select_message u1 = select_message u2 ->
  webhook env describe world secret {| body_json := Some u1 |} tr
  = webhook env describe world secret {| body_json := Some u2 |} tr.
Proof.
  intros Hsel. unfold webhook.
  destruct (negb (pystr_eqb secret (WEBHOOK_SECRET env))); [reflexivity |].
  cbn [body_json parse_json]. run. rewrite Hsel. reflexivity.
Qed.

Lemma edited_key_differs : pystr_eqb (lit "edited_message") (lit "message") = false.
Proof. reflexivity. Qed.

(** C4. A request whose path secret differs from the configured secret is
    answered with the bad-secret acknowledgment and issues no outbound
    call, whatever its body is (even one that is not JSON). *)
Theorem wrong_secret_rejected env describe world secret req tr :
  secret <> WEBHOOK_SECRET env ->
  webhook env describe world secret req tr = (Return ACK_BAD_SECRET, tr).
Proof.
  intros Hneq. unfold webhook.
  rewrite (pystr_eqb_neq _ _ Hneq). reflexivity.
Qed.

Lemma wrong_secret_rejected_witness :
  webhook sample_env sample_describe (world_completing (lit "Answer"))
    (lit "guess") {| body_json := None |} []
  = (Return ACK_BAD_SECRET, []).
Proof.
  apply (wrong_secret_rejected sample_env sample_describe
           (world_completing (lit "Answer")) (lit "guess")).
  intro H. vm_compute in H. discriminate H.
Defined.

Lemma webhook_without_text env describe world secret req tr u msg :
  secret = WEBHOOK_SECRET env ->
  body_json req = Some u ->
  select_message u = Return msg ->
  truthy msg = false
  \/ (exists d, msg = PyDict d /\ dict_get d (lit "text") = None) ->
  webhook env describe world secret req tr = (Return ACK_OK, tr).
Proof.
  intros -> Hb Hsel Hcase. unfold webhook. rewrite pystr_eqb_refl, Hb.
  cbn [parse_json]. run. rewrite Hsel.
  destruct (truthy msg) eqn:Htruthy; run; [| reflexivity].
  destruct Hcase as [Hfalsy | (d & -> & Ht)]; [discriminate |].
  unfold py_in. rewrite Ht. run. reflexivity.
Qed.

(** C3. An update (a JSON object received with the matching secret) that
    has neither a [message] nor an [edited_message], or whose selected
    message is an object without a [text] field, is answered with the bare
    success acknowledgment and issues no outbound call. *)
Theorem non_text_update_ignored env describe world secret req tr u :
  secret = WEBHOOK_SECRET env ->
  body_json req = Some (PyDict u) ->
  (dict_get u (lit "message") = None /\ dict_get u (lit "edited_message") = None)
  \/ (exists msg, select_message (PyDict u) = Return (PyDict msg)
                  /\ dict_get msg (lit "text") = None) ->
  webhook env describe world secret req tr = (Return ACK_OK, tr).
Proof.
  intros Hsecret Hb Hcase.
  destruct Hcase as [[Hm He] | (msg & Hsel & Ht)].
  - apply (webhook_without_text env describe world secret req tr
             (PyDict u) PyNone Hsecret Hb).
    + unfold select_message, py_get. rewrite Hm.
      cbn [bind ret Monad_Result Result_bind truthy]. rewrite He. reflexivity.
    + left. reflexivity.
  - apply (webhook_without_text env describe world secret req tr
             (PyDict u) (PyDict msg) Hsecret Hb Hsel).
    right. exists msg. split; [reflexivity | exact Ht].
Qed.

Lemma non_text_update_ignored_witness :
  webhook sample_env sample_describe world_rate_limited (lit "s3cret")
    {| body_json := Some sticker_update |} []
  = (Return ACK_OK, []).
Proof.
  eapply (non_text_update_ignored sample_env sample_describe world_rate_limited).
  - reflexivity.
  - reflexivity.
  - right. eexists. split; vm_compute; reflexivity.
Defined.

(** C9. With the matching secret, a selected message that has a [text]
    field but lacks [chat], the [id] inside it, or [message_id] makes the
    handler raise before the protected block: no call is issued and the
    caller gets no acknowledgment (the route answers 500). *)
Theorem incomplete_text_message_raises env describe world secret req tr u msg t :
  secret = WEBHOOK_SECRET env ->
  body_json req = Some u ->
  select_message u = Return (PyDict msg) ->
  dict_get msg (lit "text") = Some t ->
  dict_get msg (lit "chat") = None
  \/ (exists chat, dict_get msg (lit "chat") = Some (PyDict chat)
                   /\ dict_get chat (lit "id") = None)
  \/ dict_get msg (lit "message_id") = None ->
  exists e,
    webhook env describe world secret req tr = (Raise e, tr)
    /\ post_telegram env describe world secret req tr
       = ({| status := 500; content := None |}, tr).
Proof.
  intros -> Hb Hsel Ht Hcase.
  assert (Hraise : exists e, webhook env describe world
                               (WEBHOOK_SECRET env) req tr = (Raise e, tr)).
  { unfold webhook. rewrite pystr_eqb_refl, Hb. cbn [parse_json]. run.
    rewrite Hsel, (text_update_truthy _ _ _ Ht). run.
    unfold py_in. rewrite Ht. run. unfold py_getitem at 1.
    destruct (dict_get msg (lit "chat")) as [chat |] eqn:Hchat.
    2:{ run. eexists. reflexivity. }
    run. unfold py_getitem at 1.
    destruct chat as [| | | | | | chat]; run; try (eexists; reflexivity).
    destruct (dict_get chat (lit "id")) as [chat_id |] eqn:Hid.
    2:{ run. eexists. reflexivity. }
    run. unfold py_getitem at 1.
    destruct (dict_get msg (lit "message_id")) as [mid |] eqn:Hmid.
    2:{ run. eexists. reflexivity. }
    exfalso. destruct Hcase as [Hc | [(chat' & Hc & Hi) | Hm]]; congruence. }
  destruct Hraise as [e He]. exists e. split; [exact He |].
  unfold post_telegram. rewrite He. reflexivity.
Qed.

Lemma incomplete_text_message_raises_witness :
  exists e,
    webhook sample_env sample_describe (world_completing (lit "Answer"))
      (lit "s3cret") {| body_json := Some bare_text_update |} []
    = (Raise e, [])
    /\ post_telegram sample_env sample_describe (world_completing (lit "Answer"))
         (lit "s3cret") {| body_json := Some bare_text_update |} []
       = ({| status := 500; content := None |}, []).
Proof.
  eapply (incomplete_text_message_raises sample_env sample_describe
            (world_completing (lit "Answer")) (lit "s3cret")
            {| body_json := Some bare_text_update |} [] bare_text_update
            [(lit "text", PyStr (lit "hi"))] (PyStr (lit "hi"))).
  - reflexivity.
  - reflexivity.
  - vm_compute. reflexivity.
  - vm_compute. reflexivity.
  - left. vm_compute. reflexivity.
Defined.

(* ------------------------------------------------------------------ *)
(** *** The two outbound calls and the protected block *)

Lemma gemini_generate_eq env world p tr :
  gemini_generate env world p tr
  = (match world tr (gemini_call env p) with
     | Fails detail => Raise (TransportError detail)
     | Responds r =>
         if ((200 <=? status_code r) && (status_code r <? 300))%Z
         then Result_bind (parse_json (json_content r)) extract_text
         else Raise (HTTPStatusError r)
     end, tr ++ [gemini_call env p]).
Proof.
  unfold gemini_generate, post, raise_for_status. run.
  unfold M_bind, M_ret, M_raise, lift.
  destruct (world tr (gemini_call env p)) as [r | detail]; [| reflexivity].
  destruct ((200 <=? status_code r) && (status_code r <? 300))%Z;
    [| reflexivity].
  destruct (parse_json (json_content r)); reflexivity.
Qed.

Lemma telegram_send_eq env world chat_id txt reply_to tr :
  telegram_send env world chat_id txt reply_to tr
  = (match world tr (send_call env chat_id txt reply_to) with
     | Responds _ => Return tt
     | Fails detail => Raise (TransportError detail)
     end, tr ++ [send_call env chat_id txt reply_to]).
Proof.
  unfold telegram_send, post. run. unfold M_bind, M_ret.
  destruct (world tr (send_call env chat_id txt reply_to)); reflexivity.
Qed.

Lemma relay_eq env describe world chat_id mid user_text tr :
  relay env describe world chat_id mid user_text tr
  = match gemini_generate env world (rendered_prompt user_text) tr with
    | (Return out, tr1) =>
        match telegram_send env world chat_id (reply_text out) mid tr1 with
        | (Return _, tr2) => (Return ACK_OK, tr2)
        | (Raise e, tr2) =>
            match telegram_send env world chat_id (error_report describe e) mid tr2 with
            | (Return _, tr3) => (Return ACK_OK, tr3)
            | (Raise e', tr3) => (Raise e', tr3)
            end
        end
    | (Raise e, tr1) =>
        match telegram_send env world chat_id (error_report describe e) mid tr1 with
        | (Return _, tr2) => (Return ACK_OK, tr2)
        | (Raise e', tr2) => (Raise e', tr2)
        end
    end.
Proof.
  unfold relay. run. rewrite prompt_renders.
  unfold M_bind, M_catch, M_ret, lift.
  destruct (gemini_generate env world (rendered_prompt user_text) tr)
    as [[out | e] tr1].
  - fold (reply_text out).
    destruct (telegram_send env world chat_id (reply_text out) mid tr1)
      as [[[] | e] tr2]; [reflexivity |].
    destruct e; reflexivity.
  - destruct e; reflexivity.
Qed.

Lemma send_call_url env chat_id txt reply_to :
  url (send_call env chat_id txt reply_to) = send_url env.
Proof. unfold send_url. cbn [url send_call]. reflexivity. Qed.

Lemma relay_when_sends_accepted env describe world chat_id mid user_text tr :
  accepts_sends env world (tr ++ [gemini_call env (rendered_prompt user_text)]) ->
  exists txt,
    relay env describe world chat_id mid user_text tr
    = (Return ACK_OK,
       tr ++ [gemini_call env (rendered_prompt user_text);
              send_call env chat_id txt mid]).
Proof.
  intros Hacc. rewrite relay_eq.
  destruct (gemini_generate env world (rendered_prompt user_text) tr)
    as [verdict tr1] eqn:Hg.
  rewrite gemini_generate_eq in Hg. injection Hg as _ <-.
  destruct verdict as [out | e].
  - rewrite telegram_send_eq.
    destruct (Hacc _ (send_call_url env chat_id (reply_text out) mid))
      as [r Hr].
    rewrite Hr. exists (reply_text out). rewrite <- app_assoc. reflexivity.
  - rewrite telegram_send_eq.
    destruct (Hacc _ (send_call_url env chat_id (error_report describe e) mid))
      as [r Hr].
    rewrite Hr. exists (error_report describe e). rewrite <- app_assoc.
    reflexivity.
Qed.

(** The block ends on a send, and its result is that send's outcome. *)
Lemma relay_last_call env describe world chat_id mid user_text tr :
  exists calls c,
    url c = send_url env
    /\ relay env describe world chat_id mid user_text tr
       = (match world (tr ++ calls) c with
          | Responds _ => Return ACK_OK
          | Fails detail => Raise (TransportError detail)
          end, tr ++ calls ++ [c]).
Proof.
  rewrite relay_eq.
  destruct (gemini_generate env world (rendered_prompt user_text) tr)
    as [verdict tr1] eqn:Hg.
  rewrite gemini_generate_eq in Hg. injection Hg as _ <-.
  set (g := gemini_call env (rendered_prompt user_text)).
  destruct verdict as [out | e].
  - rewrite telegram_send_eq.
    destruct (world (tr ++ [g]) (send_call env chat_id (reply_text out) mid))
      as [r | detail] eqn:Hfirst.
    + exists [g], (send_call env chat_id (reply_text out) mid).
      split; [apply send_call_url |]. rewrite Hfirst, app_assoc. reflexivity.
    + rewrite telegram_send_eq.
      exists [g; send_call env chat_id (reply_text out) mid],
        (send_call env chat_id
           (error_report describe (TransportError detail)) mid).
      split; [apply send_call_url |].
      rewrite (app_assoc tr), <- (app_assoc tr [g]). cbn [app].
      destruct (world _ (send_call env chat_id
                           (error_report describe (TransportError detail)) mid));
        reflexivity.
  - rewrite telegram_send_eq.
    exists [g], (send_call env chat_id (error_report describe e) mid).
    split; [apply send_call_url |]. rewrite app_assoc.
    destruct (world _ (send_call env chat_id (error_report describe e) mid));
      reflexivity.
Qed.

Lemma lstrip_blank (s : pystr) : blank s -> lstrip s = [].
Proof.
  unfold blank. induction s as [| c s IH]; [reflexivity |].
  cbn [forallb lstrip]. intros H. apply andb_prop in H as [Hc Hs].
  rewrite Hc. exact (IH Hs).
Qed.

Lemma strip_blank (s : pystr) : blank s -> strip s = [].
Proof. intros H. unfold strip. rewrite (lstrip_blank s H). reflexivity. Qed.

(* ------------------------------------------------------------------ *)
(** *** History independence *)













(* ------------------------------------------------------------------ *)
(** *** Facts about the sample data *)

Lemma sample_update_is_text_update :
  text_update sample_update (PyInt 42) (PyInt 7) (lit " What is photosynthesis? ").
Proof.
  exists [(lit "message_id", PyInt 7);
          (lit "chat", PyDict [(lit "id", PyInt 42); (lit "type", PyStr (lit "private"))]);
          (lit "text", PyStr (lit " What is photosynthesis? "))],
    [(lit "id", PyInt 42); (lit "type", PyStr (lit "private"))].
  repeat split; vm_compute; reflexivity.
Qed.

Lemma world_completing_accepts env t h : accepts_sends env (world_completing t) h.
Proof.
  intros c _. unfold world_completing.
  destruct (pystr_eqb (url c) GEMINI_URL); eexists; reflexivity.
Qed.


Lemma first_text_part_of_completion t :
  first_text_part (completion_payload t) = Return (PyStr t).
Proof. reflexivity. Qed.

(* ------------------------------------------------------------------ *)
(** *** The relay pipeline *)

(** C1 (as stated). A request with the matching secret whose message has
    a text field and nothing else issues no call at all: line 113 raises. *)
Lemma text_field_alone_not_relayed :
  webhook sample_env sample_describe (world_completing (lit "Answer"))
    (lit "s3cret") {| body_json := Some bare_text_update |} []
  = (Raise (KeyError (PyStr (lit "chat"))), []).
Proof. vm_compute. reflexivity. Qed.

(** A message identifier of 0 is falsy for line 99: the one send carries
    no reply-to field. *)
Lemma zero_message_id_not_threaded :
  webhook sample_env sample_describe (world_completing (lit "Answer"))
    (lit "s3cret") {| body_json := Some zero_id_update |} []
  = (Return ACK_OK,
     [gemini_call sample_env (rendered_prompt (lit "hi"));
      send_call sample_env (PyInt 42) (lit "Answer") (PyInt 0)])
  /\ dict_get (send_payload (PyInt 42) (lit "Answer") (PyInt 0))
       (lit "reply_to_message_id") = None.
Proof. split; vm_compute; reflexivity. Qed.

(** A send that fails inside the protected block is followed by a second
    send, the report of that failure. *)
Lemma lost_send_is_followed_by_report :
  webhook sample_env sample_describe (world_losing_first_send (lit "Answer"))
    (lit "s3cret") sample_request []
  = (Return ACK_OK,
     [gemini_call sample_env
        (rendered_prompt (strip (lit " What is photosynthesis? ")));
      send_call sample_env (PyInt 42) (lit "Answer") (PyInt 7);
      send_call sample_env (PyInt 42) (lit "Error: timed out") (PyInt 7)]).
Proof. vm_compute. reflexivity. Qed.

(** C1 (amended). For a request with the matching secret that carries a
    well-formed text update (string text, chat id, message id) whose
    message id is truthy, and whose send the platform answers, the handler
    issues exactly one provider call followed by exactly one send, and the
    send's [reply_to_message_id] is the inbound message id. *)
Theorem text_update_relayed env describe world secret req tr u chat_id mid t :
  secret = WEBHOOK_SECRET env ->
  body_json req = Some u ->
  text_update u chat_id mid t ->
  truthy mid = true ->
  accepts_sends env world (tr ++ [gemini_call env (rendered_prompt (strip t))]) ->
  exists txt,
    webhook env describe world secret req tr
    = (Return ACK_OK,
       tr ++ [gemini_call env (rendered_prompt (strip t));
              send_call env chat_id txt mid])
    /\ dict_get (send_payload chat_id txt mid) (lit "reply_to_message_id")
       = Some mid.
Proof.
  intros Hsecret Hbody Hupdate Hmid Hacc.
  rewrite (webhook_on_text_update _ _ _ _ _ _ _ _ _ _ Hsecret Hbody Hupdate).
  destruct (relay_when_sends_accepted env describe world chat_id mid
              (strip t) tr Hacc) as [txt Hrun].
  exists txt. split; [exact Hrun |].
  unfold send_payload. rewrite Hmid. reflexivity.
Qed.

Lemma text_update_relayed_witness :
  exists txt,
    webhook sample_env sample_describe (world_completing (lit "Answer"))
      (lit "s3cret") sample_request []
    = (Return ACK_OK,
       [] ++ [gemini_call sample_env
                (rendered_prompt (strip (lit " What is photosynthesis? ")));
              send_call sample_env (PyInt 42) txt (PyInt 7)])
    /\ dict_get (send_payload (PyInt 42) txt (PyInt 7)) (lit "reply_to_message_id")
       = Some (PyInt 7).
Proof.
  apply (text_update_relayed sample_env sample_describe
           (world_completing (lit "Answer")) (lit "s3cret") sample_request []
           sample_update (PyInt 42) (PyInt 7) (lit " What is photosynthesis? ")).
  - reflexivity.
  - reflexivity.
  - exact sample_update_is_text_update.
  - reflexivity.
  - apply world_completing_accepts.
Defined.

(** C2 (as stated). The provider answers a well-formed text update with
    429 and "rate limited" while the platform cannot be reached: the one
    send of the report fails, the chat receives nothing, and the handler
    raises instead of returning the acknowledgment. *)
Lemma rate_limit_report_can_fail :
  webhook sample_env sample_describe world_platform_down (lit "s3cret")
    sample_request []
  = (Raise (TransportError (lit "All connection attempts failed")),
     [gemini_call sample_env
        (rendered_prompt (strip (lit " What is photosynthesis? ")));
      send_call sample_env (PyInt 42)
        (lit "API error: " ++ str_int 429 ++ lit " – " ++ lit "rate limited")
        (PyInt 7)])
  /\ fst (post_telegram sample_env sample_describe world_platform_down
            (lit "s3cret") sample_request [])
     = {| status := 500; content := None |}.
Proof. split; vm_compute; reflexivity. Qed.

(** C2 (amended). When the provider answers a well-formed text update
    with status 429 and body "rate limited" (so [raise_for_status]
    raises), the handler issues exactly one send after the provider call;
    the [text] field of its payload contains "429" and "rate limited" and
    its [chat_id] is the chat of the message.  The handler returns the
    success acknowledgment when the platform answers that send, and
    raises its transport failure otherwise. *)
Theorem rate_limit_reported env describe world secret req tr u chat_id mid t r :
  secret = WEBHOOK_SECRET env ->
  body_json req = Some u ->
  text_update u chat_id mid t ->
  world tr (gemini_call env (rendered_prompt (strip t))) = Responds r ->
  status_code r = 429%Z ->
  text r = lit "rate limited" ->
  exists res call payload txt,
    webhook env describe world secret req tr
    = (res, tr ++ [gemini_call env (rendered_prompt (strip t)); call])
    /\ url call = send_url env
    /\ json call = PyDict payload
    /\ dict_get payload (lit "chat_id") = Some chat_id
    /\ dict_get payload (lit "text") = Some (PyStr txt)
    /\ str_contains txt (lit "429") = true
    /\ str_contains txt (lit "rate limited") = true
    /\ (forall r',
           world (tr ++ [gemini_call env (rendered_prompt (strip t))]) call
           = Responds r' ->
           res = Return ACK_OK)
    /\ (forall detail,
           world (tr ++ [gemini_call env (rendered_prompt (strip t))]) call
           = Fails detail ->
           res = Raise (TransportError detail)).
Proof.
  intros Hsecret Hbody Hupdate Hprovider Hstatus Htext.
  rewrite (webhook_on_text_update _ _ _ _ _ _ _ _ _ _ Hsecret Hbody Hupdate).
  rewrite relay_eq, gemini_generate_eq, Hprovider, Hstatus.
  cbn [Z.leb Z.ltb Z.compare Pos.compare Pos.compare_cont andb].
  rewrite telegram_send_eq. unfold error_report. rewrite Hstatus, Htext.
  set (g := gemini_call env (rendered_prompt (strip t))).
  set (txt := lit "API error: " ++ str_int 429 ++ lit " – " ++ lit "rate limited").
  set (call := send_call env chat_id txt mid).
  exists (match world (tr ++ [g]) call with
          | Responds _ => Return ACK_OK
          | Fails detail => Raise (TransportError detail)
          end), call, (send_payload chat_id txt mid), txt.
  split.
  { rewrite <- app_assoc. cbn [app].
    destruct (world (tr ++ [g]) call); reflexivity. }
  split; [apply send_call_url |].
  split; [reflexivity |].
  split; [unfold send_payload; destruct (truthy mid); reflexivity |].
  split; [unfold send_payload; destruct (truthy mid); reflexivity |].
  split; [vm_compute; reflexivity |].
  split; [vm_compute; reflexivity |].
  split; [intros r' Hr | intros detail Hd].
  - rewrite Hr. reflexivity.
  - rewrite Hd. reflexivity.
Qed.

Lemma rate_limit_reported_witness :
  exists res call payload txt,
    webhook sample_env sample_describe world_rate_limited (lit "s3cret")
      sample_request []
    = (res, [] ++ [gemini_call sample_env
                     (rendered_prompt (strip (lit " What is photosynthesis? ")));
                   call])
    /\ url call = send_url sample_env
    /\ json call = PyDict payload
    /\ dict_get payload (lit "chat_id") = Some (PyInt 42)
    /\ dict_get payload (lit "text") = Some (PyStr txt)
    /\ str_contains txt (lit "429") = true
    /\ str_contains txt (lit "rate limited") = true
    /\ (forall r',
           world_rate_limited
             ([] ++ [gemini_call sample_env
                       (rendered_prompt (strip (lit " What is photosynthesis? ")))])
             call
           = Responds r' ->
           res = Return ACK_OK)
    /\ (forall detail,
           world_rate_limited
             ([] ++ [gemini_call sample_env
                       (rendered_prompt (strip (lit " What is photosynthesis? ")))])
             call
           = Fails detail ->
           res = Raise (TransportError detail)).
Proof.
  apply (rate_limit_reported sample_env sample_describe world_rate_limited
           (lit "s3cret") sample_request [] sample_update (PyInt 42) (PyInt 7)
           (lit " What is photosynthesis? ")
           {| status_code := 429; text := lit "rate limited";
              json_content := None |}).
  - reflexivity.
  - reflexivity.
  - exact sample_update_is_text_update.
  - unfold world_rate_limited. cbn [url gemini_call].
    rewrite pystr_eqb_refl. reflexivity.
  - reflexivity.
  - reflexivity.
Defined.




(** A body that is not JSON also ends in a 500. *)
Lemma unparsable_body_surfaces_as_500 :
  post_telegram sample_env sample_describe (world_completing (lit "Answer"))
    (lit "s3cret") {| body_json := None |} []
  = ({| status := 500; content := None |}, []).
Proof. vm_compute. reflexivity. Qed.



(** C7 (as stated). A payload with an empty [candidates] list: line 94
    raises [IndexError]. *)
Lemma empty_candidates_raise :
  extract_text (PyDict [(lit "candidates", PyList [])]) = Raise IndexError.
Proof. reflexivity. Qed.

(** C7 (amended). On a payload that is an object whose expected fields,
    where present, have the expected shape (candidates and parts: lists
    starting with an object; content: an object; text: a string), line 94
    returns: the empty string when [candidates], [content], [parts] or
    [text] is absent, the stripped text otherwise. *)
Theorem extract_text_defaults (d : list (pystr * pyval)) :
  (dict_get d (lit "candidates") = None -> extract_text (PyDict d) = Return [])
  /\ forall c cs,
      dict_get d (lit "candidates") = Some (PyList (PyDict c :: cs)) ->
      (dict_get c (lit "content") = None -> extract_text (PyDict d) = Return [])
      /\ forall ct,
          dict_get c (lit "content") = Some (PyDict ct) ->
          (dict_get ct (lit "parts") = None ->
           extract_text (PyDict d) = Return [])
          /\ forall p ps,
              dict_get ct (lit "parts") = Some (PyList (PyDict p :: ps)) ->
              (dict_get p (lit "text") = None ->
               extract_text (PyDict d) = Return [])
              /\ forall s,
                  dict_get p (lit "text") = Some (PyStr s) ->
                  extract_text (PyDict d) = Return (strip s).
Proof.
  split; [intros H | intros c cs H].
  { extract_with_fields. }
  split; [intros H1 | intros ct H1].
  { extract_with_fields. }
  split; [intros H2 | intros p ps H2].
  { extract_with_fields. }
  split; [intros H3 | intros s H3]; extract_with_fields.
Qed.

Lemma extract_text_defaults_witness :
  extract_text (PyDict truncated_payload) = Return [].
Proof.
  apply (proj1
           (proj2
              (proj2 (extract_text_defaults truncated_payload)
                 truncated_candidate [] eq_refl)
              [(lit "role", PyStr (lit "model"))] eq_refl)).
  reflexivity.
Defined.



(* ===================================================================== *)
(** ** Further properties of [app.py] *)
(* ===================================================================== *)

(* ------------------------------------------------------------------ *)
(** *** [str.strip] *)

Lemma lstrip_head (s : pystr) :
  match lstrip s with
  | [] => True
  | c :: _ => isspace c = false
  end.
Proof.
  induction s as [| c s IH]; [exact I |].
  cbn [lstrip]. destruct (isspace c) eqn:Hc; [exact IH | exact Hc].
Qed.

Lemma lstrip_suffix (s : pystr) : exists dropped, s = dropped ++ lstrip s.
Proof.
  induction s as [| c s [dropped IH]]; [exists []; reflexivity |].
  cbn [lstrip]. destruct (isspace c).
  - exists (c :: dropped). cbn [app]. f_equal. exact IH.
  - exists []. reflexivity.
Qed.

Lemma lstrip_fixed (s : pystr) :
  match s with
  | [] => True
  | c :: _ => isspace c = false
  end ->
  lstrip s = s.
Proof.
  destruct s as [| c s]; [reflexivity |]. cbn [lstrip]. intros ->. reflexivity.
Qed.

Lemma strip_head (s : pystr) :
  match strip s with
  | [] => True
  | c :: _ => isspace c = false
  end.
Proof.
  unfold strip.
  destruct (lstrip_suffix (rev (lstrip s))) as [dropped Hsuffix].
  pose proof (lstrip_head s) as Hhead.
  apply (f_equal (@rev N)) in Hsuffix.
  rewrite rev_involutive, rev_app_distr in Hsuffix.
  rewrite Hsuffix in Hhead.
  destruct (rev (lstrip (rev (lstrip s)))) as [| c rest]; [exact I |].
  exact Hhead.
Qed.

Lemma strip_last (s : pystr) :
  match rev (strip s) with
  | [] => True
  | c :: _ => isspace c = false
  end.
Proof. unfold strip. rewrite rev_involutive. apply lstrip_head. Qed.

Lemma strip_idempotent (s : pystr) : strip (strip s) = strip s.
Proof.
  unfold strip at 1.
  rewrite (lstrip_fixed (strip s) (strip_head s)).
  rewrite (lstrip_fixed (rev (strip s)) (strip_last s)).
  apply rev_involutive.
Qed.

(* ------------------------------------------------------------------ *)
(** *** The prompt (lines 70-79 and 118) *)

(** X1. Rendering the prompt never raises and puts the user text, as it
    is, between the system instructions followed by the question header
    and a suffix that does not depend on it: braces in the user text are
    not read as replacement fields. *)
Theorem prompt_frames_user_text :
  exists suffix,
    forall user_text,
      str_format PROMPT_TEMPLATE None
        [(lit "system", SYSTEM_INSTRUCTIONS); (lit "user", user_text)]
      = Return (SYSTEM_INSTRUCTIONS ++ lit "\n\nUser question:\n"
                ++ user_text ++ suffix).
Proof.
  eexists. intros user_text. rewrite prompt_renders. unfold rendered_prompt.
  f_equal. f_equal.
  change (lit "\n\nUser question:\n") with (lit "\n\n" ++ lit "User question:\n").
  rewrite <- app_assoc. reflexivity.
Qed.

(* ------------------------------------------------------------------ *)
(** *** [telegram_send] (lines 96-101) *)

(** X2. The payload of a send always carries the chat id, the text and
    the Markdown parse mode; it carries [reply_to_message_id] exactly
    when [reply_to] is truthy, so [None] and a message id of 0 give an
    unthreaded send. *)
Theorem send_payload_fields chat_id txt reply_to :
  dict_get (send_payload chat_id txt reply_to) (lit "chat_id") = Some chat_id
  /\ dict_get (send_payload chat_id txt reply_to) (lit "text") = Some (PyStr txt)
  /\ dict_get (send_payload chat_id txt reply_to) (lit "parse_mode")
     = Some (PyStr (lit "Markdown"))
  /\ dict_get (send_payload chat_id txt reply_to) (lit "reply_to_message_id")
     = (if truthy reply_to then Some reply_to else None)
  /\ List.length (send_payload chat_id txt reply_to)
     = (if truthy reply_to then 4 else 3).
Proof.
  unfold send_payload. destruct (truthy reply_to); repeat split; reflexivity.
Qed.

(** X3. [telegram_send] issues exactly one call and never looks at the
    status of the answer: any response, a 4xx or 5xx included, makes it
    return; it raises only when no response arrives. *)
Theorem telegram_send_ignores_status env world chat_id txt reply_to tr :
  snd (telegram_send env world chat_id txt reply_to tr)
  = tr ++ [send_call env chat_id txt reply_to]
  /\ (forall r,
         world tr (send_call env chat_id txt reply_to) = Responds r ->
         fst (telegram_send env world chat_id txt reply_to tr) = Return tt)
  /\ (forall detail,
         world tr (send_call env chat_id txt reply_to) = Fails detail ->
         fst (telegram_send env world chat_id txt reply_to tr)
         = Raise (TransportError detail)).
Proof.
  rewrite telegram_send_eq. cbn [fst snd].
  split; [reflexivity |].
  split; [intros r Hr | intros detail Hd].
  - rewrite Hr. reflexivity.
  - rewrite Hd. reflexivity.
Qed.

Lemma telegram_send_ignores_status_witness :
  fst (telegram_send sample_env (world_rejecting_sends (lit "Answer"))
         (PyInt 42) (lit "*unbalanced") (PyInt 7) [])
  = Return tt.
Proof.
  apply (proj1 (proj2 (telegram_send_ignores_status sample_env
                         (world_rejecting_sends (lit "Answer"))
                         (PyInt 42) (lit "*unbalanced") (PyInt 7) []))
           platform_bad_request).
  vm_compute. reflexivity.
Defined.

(* ------------------------------------------------------------------ *)
(** *** [gemini_generate] (lines 81-94) *)

(** X4. [gemini_generate] issues exactly one call whatever happens.  It
    raises the transport failure when no response arrives, an
    [HTTPStatusError] carrying the response for every status outside
    200-299 (whatever the body holds), a JSON decoding error for a 2xx
    body that is not JSON, and otherwise gives what line 94 extracts. *)
Theorem gemini_generate_outcomes env world p tr :
  snd (gemini_generate env world p tr) = tr ++ [gemini_call env p]
  /\ (forall detail,
         world tr (gemini_call env p) = Fails detail ->
         fst (gemini_generate env world p tr) = Raise (TransportError detail))
  /\ (forall r,
         world tr (gemini_call env p) = Responds r ->
         ~ (200 <= status_code r < 300)%Z ->
         fst (gemini_generate env world p tr) = Raise (HTTPStatusError r))
  /\ (forall r,
         world tr (gemini_call env p) = Responds r ->
         (200 <= status_code r < 300)%Z ->
         fst (gemini_generate env world p tr)
         = match json_content r with
           | None => Raise JSONDecodeError
           | Some data => extract_text data
           end).
Proof.
  rewrite gemini_generate_eq. cbn [fst snd].
  split; [reflexivity |].
  split; [intros detail Hd; rewrite Hd; reflexivity |].
  split; intros r Hr Hstatus; rewrite Hr.
  - replace ((200 <=? status_code r) && (status_code r <? 300))%Z with false;
      [reflexivity |].
    symmetry. apply andb_false_iff.
    destruct (Z.leb_spec 200 (status_code r)); [right | left; reflexivity].
    apply Z.ltb_ge. lia.
  - replace ((200 <=? status_code r) && (status_code r <? 300))%Z with true
      by (symmetry; apply andb_true_intro; split;
          [apply Z.leb_le | apply Z.ltb_lt]; lia).
    destruct (json_content r); reflexivity.
Qed.

Lemma gemini_generate_outcomes_witness :
  fst (gemini_generate sample_env world_rate_limited (lit "prompt") [])
  = Raise (HTTPStatusError {| status_code := 429; text := lit "rate limited";
                              json_content := None |}).
Proof.
  apply (proj1 (proj2 (proj2 (gemini_generate_outcomes sample_env
                                world_rate_limited (lit "prompt") [])))).
  - vm_compute. reflexivity.
  - cbn [status_code]. lia.
Defined.

Lemma py_strip_Return v out :
  py_strip v = Return out -> exists raw, v = PyStr raw /\ out = strip raw.
Proof.
  destruct v; cbn [py_strip]; intros H; try discriminate H.
  injection H as <-. eexists. split; reflexivity.
Qed.

Lemma extract_text_Return data out :
  extract_text data = Return out -> exists raw, out = strip raw.
Proof.
  unfold extract_text. cbn [bind Monad_Result Result_bind].
  destruct (first_text_part data) as [t | e]; [| discriminate].
  intros H. destruct (py_strip_Return _ _ H) as (raw & _ & Hout).
  exists raw. exact Hout.
Qed.

Lemma gemini_generate_Return env world p tr out tr' :
  gemini_generate env world p tr = (Return out, tr') ->
  exists raw, out = strip raw.
Proof.
  rewrite gemini_generate_eq. intros H. injection H as H _.
  destruct (world tr (gemini_call env p)) as [r | detail]; [| discriminate].
  destruct ((200 <=? status_code r) && (status_code r <? 300))%Z;
    [| discriminate].
  destruct (parse_json (json_content r)) as [data | e]; [| discriminate].
  cbn [Result_bind] in H. exact (extract_text_Return data out H).
Qed.

(** X5. A text that [gemini_generate] returns is stripped: stripping it
    again changes nothing, and it neither begins nor ends with a
    whitespace character. *)
Theorem gemini_generate_returns_stripped env world p tr out tr' :
  gemini_generate env world p tr = (Return out, tr') ->
  strip out = out
  /\ (forall c rest, out = c :: rest -> isspace c = false)
  /\ (forall c rest, rev out = c :: rest -> isspace c = false).
Proof.
  intros Hrun. destruct (gemini_generate_Return _ _ _ _ _ _ Hrun) as [raw ->].
  split; [apply strip_idempotent |].
  split; intros c rest Hshape.
  - pose proof (strip_head raw) as H. rewrite Hshape in H. exact H.
  - pose proof (strip_last raw) as H. rewrite Hshape in H. exact H.
Qed.

Lemma gemini_generate_returns_stripped_witness :
  strip (lit "Answer") = lit "Answer"
  /\ (forall c rest, lit "Answer" = c :: rest -> isspace c = false)
  /\ (forall c rest, rev (lit "Answer") = c :: rest -> isspace c = false).
Proof.
  apply (gemini_generate_returns_stripped sample_env
           (world_completing (lit "  Answer \n")) (lit "prompt") []
           (lit "Answer")
           ([] ++ [gemini_call sample_env (lit "prompt")])).
  vm_compute. reflexivity.
Defined.

(* ------------------------------------------------------------------ *)
(** *** The shape of a run of [webhook] (lines 103-132) *)

Lemma py_getitem_Return v k x :
  py_getitem v k = Return x -> exists d, v = PyDict d /\ dict_get d k = Some x.
Proof.
  destruct v; cbn [py_getitem]; intros H; try discriminate H.
  destruct (dict_get d k) as [y |] eqn:Hget; [| discriminate H].
  injection H as <-. exists d. split; [reflexivity | exact Hget].
Qed.

(** A run of [webhook] is a rejection, a silent acknowledgment, an
    exception raised before any call, or the protected block run on a
    well-formed text update. *)
Lemma webhook_cases env describe world secret req tr :
  (secret <> WEBHOOK_SECRET env
   /\ webhook env describe world secret req tr = (Return ACK_BAD_SECRET, tr))
  \/ (secret = WEBHOOK_SECRET env
      /\ (webhook env describe world secret req tr = (Return ACK_OK, tr)
          \/ (exists e, webhook env describe world secret req tr = (Raise e, tr))
          \/ (exists u chat_id mid t,
                 body_json req = Some u
                 /\ text_update u chat_id mid t
                 /\ webhook env describe world secret req tr
                    = relay env describe world chat_id mid (strip t) tr))).
Proof.
  destruct (list_eq_dec N.eq_dec secret (WEBHOOK_SECRET env)) as [Heq | Hneq].
  2:{ left. split; [exact Hneq |]. unfold webhook.
      rewrite (pystr_eqb_neq _ _ Hneq). reflexivity. }
  right. split; [exact Heq |]. subst secret. unfold webhook.
  rewrite pystr_eqb_refl. cbn [negb].
  destruct (body_json req) as [u |] eqn:Hbody; cbn [parse_json]; run.
  2:{ right. left. eexists. reflexivity. }
  destruct (select_message u) as [msg | e] eqn:Hsel.
  2:{ right. left. eexists. reflexivity. }
  destruct (truthy msg) eqn:Htruthy; run; [| left; reflexivity].
  destruct (py_in (lit "text") msg) as [[|] | e] eqn:Hin; run;
    [| left; reflexivity | right; left; eexists; reflexivity].
  destruct (py_getitem msg (lit "chat")) as [chat | e] eqn:Hchat; run.
  2:{ right. left. eexists. reflexivity. }
  destruct (py_getitem chat (lit "id")) as [chat_id | e] eqn:Hid; run.
  2:{ right. left. eexists. reflexivity. }
  destruct (py_getitem msg (lit "message_id")) as [mid | e] eqn:Hmid; run.
  2:{ right. left. eexists. reflexivity. }
  destruct (py_getitem msg (lit "text")) as [t | e] eqn:Htext; run.
  2:{ right. left. eexists. reflexivity. }
  destruct (py_strip t) as [user_text | e] eqn:Hstrip; run.
  2:{ right. left. eexists. reflexivity. }
  right. right.
  destruct (py_getitem_Return _ _ _ Hchat) as (d & -> & Hdchat).
  destruct (py_getitem_Return _ _ _ Hid) as (c & -> & Hcid).
  destruct (py_getitem_Return _ _ _ Hmid) as (d' & Hd' & Hdmid).
  injection Hd' as <-.
  destruct (py_getitem_Return _ _ _ Htext) as (d' & Hd' & Hdtext).
  injection Hd' as <-.
  destruct (py_strip_Return _ _ Hstrip) as (raw & -> & ->).
  exists u, chat_id, mid, raw.
  split; [reflexivity |]. split; [| reflexivity].
  exists d, c. repeat split; assumption.
Qed.

(** The calls of the protected block: the provider call, a send, and a
    second send only when the first one failed inside the [try]. *)
Lemma relay_calls env describe world chat_id mid user_text tr :
  exists res txt,
    relay env describe world chat_id mid user_text tr
    = (res, tr ++ [gemini_call env (rendered_prompt user_text);
                   send_call env chat_id txt mid])
    \/ exists detail,
        world (tr ++ [gemini_call env (rendered_prompt user_text)])
          (send_call env chat_id txt mid) = Fails detail
        /\ relay env describe world chat_id mid user_text tr
           = (res, tr ++ [gemini_call env (rendered_prompt user_text);
                          send_call env chat_id txt mid;
                          send_call env chat_id
                            (lit "Error: " ++ describe (TransportError detail))
                            mid]).
Proof.
  rewrite relay_eq.
  destruct (gemini_generate env world (rendered_prompt user_text) tr)
    as [verdict tr1] eqn:Hg.
  rewrite gemini_generate_eq in Hg. injection Hg as _ <-.
  set (g := gemini_call env (rendered_prompt user_text)).
  destruct verdict as [out | e].
  - rewrite telegram_send_eq.
    destruct (world (tr ++ [g]) (send_call env chat_id (reply_text out) mid))
      as [r | detail] eqn:Hfirst.
    + exists (Return ACK_OK), (reply_text out). left.
      rewrite <- app_assoc. reflexivity.
    + rewrite telegram_send_eq. cbn [error_report].
      rewrite <- !app_assoc. cbn [app].
      destruct (world (tr ++ [g; send_call env chat_id (reply_text out) mid])
                  (send_call env chat_id
                     (lit "Error: " ++ describe (TransportError detail)) mid))
        as [r2 | detail2];
        eexists _, (reply_text out); right; exists detail;
        (split; [exact Hfirst | reflexivity]).
  - rewrite telegram_send_eq. rewrite <- app_assoc. cbn [app].
    destruct (world (tr ++ [g]) (send_call env chat_id (error_report describe e) mid))
      as [r | detail];
      eexists _, (error_report describe e); left; reflexivity.
Qed.

(** X6. A text message whose text is blank is not ignored: the provider
    is called with the prompt of an empty question. *)
Theorem blank_text_still_relayed env describe world secret req tr u chat_id mid t :
  secret = WEBHOOK_SECRET env ->
  body_json req = Some u ->
  text_update u chat_id mid t ->
  blank t ->
  exists res later,
    webhook env describe world secret req tr
    = (res, tr ++ gemini_call env (rendered_prompt []) :: later).
Proof.
  intros Hsecret Hbody Hupdate Hblank.
  rewrite (webhook_on_text_update _ _ _ _ _ _ _ _ _ _ Hsecret Hbody Hupdate).
  rewrite (strip_blank t Hblank).
  destruct (relay_calls env describe world chat_id mid [] tr)
    as (res & txt & [Hrun | (detail & _ & Hrun)]);
    rewrite Hrun; eexists _, _; reflexivity.
Qed.

Lemma blank_text_still_relayed_witness :
  exists res later,
    webhook sample_env sample_describe (world_completing (lit "Answer"))
      (lit "s3cret") {| body_json := Some blank_text_update |} []
    = (res, [] ++ gemini_call sample_env (rendered_prompt []) :: later).
Proof.
  apply (blank_text_still_relayed sample_env sample_describe
           (world_completing (lit "Answer")) (lit "s3cret")
           {| body_json := Some blank_text_update |} [] blank_text_update
           (PyInt 42) (PyInt 9) (lit "  \n ")).
  - reflexivity.
  - reflexivity.
  - exists [(lit "message_id", PyInt 9);
            (lit "chat", PyDict [(lit "id", PyInt 42);
                                 (lit "type", PyStr (lit "private"))]);
            (lit "text", PyStr (lit "  \n "))],
      [(lit "id", PyInt 42); (lit "type", PyStr (lit "private"))].
    repeat split; vm_compute; reflexivity.
  - vm_compute. reflexivity.
Defined.

(** X7. For a well-formed text update the handler never calls the
    provider twice and never sends more than two messages: its calls are
    the provider call and one send, followed by a second send (the
    report of the failure) only when the first send failed. *)
Theorem one_provider_call_then_sends env describe world secret req tr u chat_id mid t :
  secret = WEBHOOK_SECRET env ->
  body_json req = Some u ->
  text_update u chat_id mid t ->
  exists res txt,
    webhook env describe world secret req tr
    = (res, tr ++ [gemini_call env (rendered_prompt (strip t));
                   send_call env chat_id txt mid])
    \/ exists detail,
        world (tr ++ [gemini_call env (rendered_prompt (strip t))])
          (send_call env chat_id txt mid) = Fails detail
        /\ webhook env describe world secret req tr
           = (res, tr ++ [gemini_call env (rendered_prompt (strip t));
                          send_call env chat_id txt mid;
                          send_call env chat_id
                            (lit "Error: " ++ describe (TransportError detail))
                            mid]).
Proof.
  intros Hsecret Hbody Hupdate.
  rewrite (webhook_on_text_update _ _ _ _ _ _ _ _ _ _ Hsecret Hbody Hupdate).
  apply relay_calls.
Qed.

Lemma one_provider_call_then_sends_witness :
  exists res txt,
    webhook sample_env sample_describe world_offline (lit "s3cret")
      sample_request []
    = (res, [] ++ [gemini_call sample_env
                     (rendered_prompt (strip (lit " What is photosynthesis? ")));
                   send_call sample_env (PyInt 42) txt (PyInt 7)])
    \/ exists detail,
        world_offline
          ([] ++ [gemini_call sample_env
                    (rendered_prompt (strip (lit " What is photosynthesis? ")))])
          (send_call sample_env (PyInt 42) txt (PyInt 7)) = Fails detail
        /\ webhook sample_env sample_describe world_offline (lit "s3cret")
             sample_request []
           = (res, [] ++ [gemini_call sample_env
                            (rendered_prompt (strip (lit " What is photosynthesis? ")));
                          send_call sample_env (PyInt 42) txt (PyInt 7);
                          send_call sample_env (PyInt 42)
                            (lit "Error: "
                             ++ sample_describe (TransportError detail))
                            (PyInt 7)]).
Proof.
  apply (one_provider_call_then_sends sample_env sample_describe world_offline
           (lit "s3cret") sample_request [] sample_update (PyInt 42) (PyInt 7)
           (lit " What is photosynthesis? ") eq_refl eq_refl
           sample_update_is_text_update).
Defined.

(* ------------------------------------------------------------------ *)
(** *** The branches of the protected block (lines 117-130) *)

(** X8. When [gemini_generate] raises anything but an HTTP status error
    (no response, a body that is not JSON, a payload on which line 94
    raises), the chat is sent "Error: " followed by the exception's
    description, once, and the handler returns the success
    acknowledgment, the platform having answered that send. *)
Theorem provider_failure_reported
  env describe world secret req tr u chat_id mid t e tr1 r' :
  secret = WEBHOOK_SECRET env ->
  body_json req = Some u ->
  text_update u chat_id mid t ->
  gemini_generate env world (rendered_prompt (strip t)) tr = (Raise e, tr1) ->
  (forall r, e <> HTTPStatusError r) ->
  world tr1 (send_call env chat_id (lit "Error: " ++ describe e) mid)
  = Responds r' ->
  webhook env describe world secret req tr
  = (Return ACK_OK,
     tr ++ [gemini_call env (rendered_prompt (strip t));
            send_call env chat_id (lit "Error: " ++ describe e) mid]).
Proof.
  intros Hsecret Hbody Hupdate Hgen Hkind Hsend.
  rewrite (webhook_on_text_update _ _ _ _ _ _ _ _ _ _ Hsecret Hbody Hupdate).
  rewrite relay_eq, Hgen.
  assert (Hreport : error_report describe e = lit "Error: " ++ describe e).
  { destruct e; try reflexivity. exfalso. exact (Hkind response eq_refl). }
  rewrite Hreport, telegram_send_eq, Hsend.
  rewrite gemini_generate_eq in Hgen. injection Hgen as _ <-.
  rewrite <- app_assoc. reflexivity.
Qed.

Lemma provider_failure_reported_witness :
  webhook sample_env sample_describe world_no_candidate (lit "s3cret")
    sample_request []
  = (Return ACK_OK,
     [] ++ [gemini_call sample_env
              (rendered_prompt (strip (lit " What is photosynthesis? ")));
            send_call sample_env (PyInt 42)
              (lit "Error: " ++ sample_describe IndexError) (PyInt 7)]).
Proof.
  apply (provider_failure_reported sample_env sample_describe world_no_candidate
           (lit "s3cret") sample_request [] sample_update (PyInt 42) (PyInt 7)
           (lit " What is photosynthesis? ") IndexError
           [gemini_call sample_env
              (rendered_prompt (strip (lit " What is photosynthesis? ")))]
           platform_ok).
  - reflexivity.
  - reflexivity.
  - exact sample_update_is_text_update.
  - vm_compute. reflexivity.
  - intros r H. discriminate H.
  - vm_compute. reflexivity.
Defined.

(** X9. When the provider answers with any status outside 200-299, the
    chat is sent "API error: ", the status in decimal, " – " and the raw
    response body, once, and the handler returns the success
    acknowledgment, the platform having answered that send. *)
Theorem http_error_reported env describe world secret req tr u chat_id mid t r r' :
  secret = WEBHOOK_SECRET env ->
  body_json req = Some u ->
  text_update u chat_id mid t ->
  world tr (gemini_call env (rendered_prompt (strip t))) = Responds r ->
  ~ (200 <= status_code r < 300)%Z ->
  world (tr ++ [gemini_call env (rendered_prompt (strip t))])
    (send_call env chat_id
       (lit "API error: " ++ str_int (status_code r) ++ lit " – " ++ text r) mid)
  = Responds r' ->
  webhook env describe world secret req tr
  = (Return ACK_OK,
     tr ++ [gemini_call env (rendered_prompt (strip t));
            send_call env chat_id
              (lit "API error: " ++ str_int (status_code r) ++ lit " – " ++ text r)
              mid]).
Proof.
  intros Hsecret Hbody Hupdate Hprovider Hstatus Hsend.
  rewrite (webhook_on_text_update _ _ _ _ _ _ _ _ _ _ Hsecret Hbody Hupdate).
  rewrite relay_eq, gemini_generate_eq, Hprovider.
  replace ((200 <=? status_code r) && (status_code r <? 300))%Z with false.
  - rewrite telegram_send_eq. cbn [error_report]. rewrite Hsend.
    rewrite <- app_assoc. reflexivity.
  - symmetry. apply andb_false_iff.
    destruct (Z.leb_spec 200 (status_code r)); [right | left; reflexivity].
    apply Z.ltb_ge. lia.
Qed.

Lemma http_error_reported_witness :
  webhook sample_env sample_describe world_rate_limited (lit "s3cret")
    sample_request []
  = (Return ACK_OK,
     [] ++ [gemini_call sample_env
              (rendered_prompt (strip (lit " What is photosynthesis? ")));
            send_call sample_env (PyInt 42)
              (lit "API error: " ++ str_int 429 ++ lit " – " ++ lit "rate limited")
              (PyInt 7)]).
Proof.
  apply (http_error_reported sample_env sample_describe world_rate_limited
           (lit "s3cret") sample_request [] sample_update (PyInt 42) (PyInt 7)
           (lit " What is photosynthesis? ")
           {| status_code := 429; text := lit "rate limited";
              json_content := None |}
           platform_ok).
  - reflexivity.
  - reflexivity.
  - exact sample_update_is_text_update.
  - vm_compute. reflexivity.
  - cbn [status_code]. lia.
  - vm_compute. reflexivity.
Defined.

(** X10. A completion that is not blank is relayed stripped and
    otherwise unchanged, in one send threaded like any other; the
    handler returns the success acknowledgment whatever status the
    platform answers that send with. *)
Theorem completion_relayed_stripped
  env describe world secret req tr u chat_id mid t r data raw c rest r' :
  secret = WEBHOOK_SECRET env ->
  body_json req = Some u ->
  text_update u chat_id mid t ->
  world tr (gemini_call env (rendered_prompt (strip t))) = Responds r ->
  (200 <= status_code r < 300)%Z ->
  json_content r = Some data ->
  first_text_part data = Return (PyStr raw) ->
  strip raw = c :: rest ->
  world (tr ++ [gemini_call env (rendered_prompt (strip t))])
    (send_call env chat_id (strip raw) mid) = Responds r' ->
  webhook env describe world secret req tr
  = (Return ACK_OK,
     tr ++ [gemini_call env (rendered_prompt (strip t));
            send_call env chat_id (strip raw) mid]).
Proof.
  intros Hsecret Hbody Hupdate Hprovider Hstatus Hjson Hpart Hout Hsend.
  rewrite (webhook_on_text_update _ _ _ _ _ _ _ _ _ _ Hsecret Hbody Hupdate).
  rewrite relay_eq, gemini_generate_eq, Hprovider.
  replace ((200 <=? status_code r) && (status_code r <? 300))%Z with true
    by (symmetry; apply andb_true_intro; split;
        [apply Z.leb_le | apply Z.ltb_lt]; lia).
  rewrite Hjson. cbn [parse_json Result_bind]. unfold extract_text.
  rewrite Hpart. run. cbn [py_strip].
  assert (Hreply : reply_text (strip raw) = strip raw)
    by (rewrite Hout; reflexivity).
  rewrite Hreply, telegram_send_eq, Hsend.
  rewrite <- app_assoc. reflexivity.
Qed.

Lemma completion_relayed_stripped_witness :
  webhook sample_env sample_describe (world_rejecting_sends (lit " Answer\n"))
    (lit "s3cret") sample_request []
  = (Return ACK_OK,
     [] ++ [gemini_call sample_env
              (rendered_prompt (strip (lit " What is photosynthesis? ")));
            send_call sample_env (PyInt 42) (strip (lit " Answer\n")) (PyInt 7)]).
Proof.
  apply (completion_relayed_stripped sample_env sample_describe
           (world_rejecting_sends (lit " Answer\n")) (lit "s3cret")
           sample_request [] sample_update (PyInt 42) (PyInt 7)
           (lit " What is photosynthesis? ")
           {| status_code := 200; text := lit " Answer\n";
              json_content := Some (completion_payload (lit " Answer\n")) |}
           (completion_payload (lit " Answer\n")) (lit " Answer\n")
           65%N (lit "nswer") platform_bad_request).
  - reflexivity.
  - reflexivity.
  - exact sample_update_is_text_update.
  - vm_compute. reflexivity.
  - cbn [status_code]. lia.
  - reflexivity.
  - apply first_text_part_of_completion.
  - vm_compute. reflexivity.
  - vm_compute. reflexivity.
Defined.

(** X11. When the send of a completion fails inside the [try], the
    completion is not sent again: the only further call is one send of
    "Error: " followed by the description of that failure, and the
    handler returns the success acknowledgment once it is answered. *)
Theorem lost_send_reported
  env describe world secret req tr u chat_id mid t out tr1 detail r' :
  secret = WEBHOOK_SECRET env ->
  body_json req = Some u ->
  text_update u chat_id mid t ->
  gemini_generate env world (rendered_prompt (strip t)) tr = (Return out, tr1) ->
  world tr1 (send_call env chat_id (reply_text out) mid) = Fails detail ->
  world (tr1 ++ [send_call env chat_id (reply_text out) mid])
    (send_call env chat_id (lit "Error: " ++ describe (TransportError detail)) mid)
  = Responds r' ->
  webhook env describe world secret req tr
  = (Return ACK_OK,
     tr ++ [gemini_call env (rendered_prompt (strip t));
            send_call env chat_id (reply_text out) mid;
            send_call env chat_id
              (lit "Error: " ++ describe (TransportError detail)) mid]).
Proof.
  intros Hsecret Hbody Hupdate Hgen Hfirst Hsecond.
  rewrite (webhook_on_text_update _ _ _ _ _ _ _ _ _ _ Hsecret Hbody Hupdate).
  rewrite relay_eq, Hgen, telegram_send_eq, Hfirst, telegram_send_eq.
  cbn [error_report]. rewrite Hsecond.
  rewrite gemini_generate_eq in Hgen. injection Hgen as _ <-.
  rewrite <- !app_assoc. reflexivity.
Qed.

Lemma lost_send_reported_witness :
  webhook sample_env sample_describe (world_losing_first_send (lit "Answer"))
    (lit "s3cret") sample_request []
  = (Return ACK_OK,
     [] ++ [gemini_call sample_env
              (rendered_prompt (strip (lit " What is photosynthesis? ")));
            send_call sample_env (PyInt 42) (reply_text (lit "Answer")) (PyInt 7);
            send_call sample_env (PyInt 42)
              (lit "Error: "
               ++ sample_describe (TransportError (lit "timed out")))
              (PyInt 7)]).
Proof.
  apply (lost_send_reported sample_env sample_describe
           (world_losing_first_send (lit "Answer")) (lit "s3cret")
           sample_request [] sample_update (PyInt 42) (PyInt 7)
           (lit " What is photosynthesis? ") (lit "Answer")
           [gemini_call sample_env
              (rendered_prompt (strip (lit " What is photosynthesis? ")))]
           (lit "timed out") platform_ok).
  - reflexivity.
  - reflexivity.
  - exact sample_update_is_text_update.
  - vm_compute. reflexivity.
  - vm_compute. reflexivity.
  - vm_compute. reflexivity.
Defined.

(* ------------------------------------------------------------------ *)
(** *** Updates of an unexpected shape (lines 108-115) *)

(** X12. A selected message that has a chat id and a message id but
    whose [text] is not a string ([null], a number) makes line 115 raise
    [AttributeError] outside the [try]: no call is issued and the
    exception leaves the handler. *)
Theorem non_string_text_raises env describe world secret req tr u msg chat v chat_id mid :
  secret = WEBHOOK_SECRET env ->
  body_json req = Some u ->
  select_message u = Return (PyDict msg) ->
  dict_get msg (lit "text") = Some v ->
  (forall s, v <> PyStr s) ->
  dict_get msg (lit "chat") = Some (PyDict chat) ->
  dict_get chat (lit "id") = Some chat_id ->
  dict_get msg (lit "message_id") = Some mid ->
  webhook env describe world secret req tr = (Raise AttributeError, tr).
Proof.
  intros -> Hbody Hsel Htext Hkind Hchat Hid Hmid.
  unfold webhook. rewrite pystr_eqb_refl, Hbody. cbn [parse_json]. run.
  rewrite Hsel, (text_update_truthy _ _ _ Htext). run.
  unfold py_in, py_getitem. rewrite Htext, Hchat, Hmid. run. rewrite Hid. run.
  destruct v; try reflexivity. exfalso. exact (Hkind s eq_refl).
Qed.

Lemma non_string_text_raises_witness :
  webhook sample_env sample_describe (world_completing (lit "Answer"))
    (lit "s3cret") {| body_json := Some null_text_update |} []
  = (Raise AttributeError, []).
Proof.
  apply (non_string_text_raises sample_env sample_describe
           (world_completing (lit "Answer")) (lit "s3cret")
           {| body_json := Some null_text_update |} [] null_text_update
           [(lit "message_id", PyInt 10);
            (lit "chat", PyDict [(lit "id", PyInt 42)]);
            (lit "text", PyNone)]
           [(lit "id", PyInt 42)] PyNone (PyInt 42) (PyInt 10)).
  - reflexivity.
  - reflexivity.
  - vm_compute. reflexivity.
  - vm_compute. reflexivity.
  - intros s H. discriminate H.
  - vm_compute. reflexivity.
  - vm_compute. reflexivity.
  - vm_compute. reflexivity.
Defined.

(** X13. A body that is JSON but not an object (a list, a string, a
    number, [null]) makes line 109 raise [AttributeError]: no call is
    issued and the route answers 500. *)
Theorem non_object_body_raises env describe world secret req tr u :
  secret = WEBHOOK_SECRET env ->
  body_json req = Some u ->
  (forall d, u <> PyDict d) ->
  webhook env describe world secret req tr = (Raise AttributeError, tr)
  /\ post_telegram env describe world secret req tr
     = ({| status := 500; content := None |}, tr).
Proof.
  intros -> Hbody Hkind.
  assert (Hrun : webhook env describe world (WEBHOOK_SECRET env) req tr
                 = (Raise AttributeError, tr)).
  { unfold webhook. rewrite pystr_eqb_refl, Hbody. cbn [parse_json]. run.
    destruct u; try reflexivity. exfalso. exact (Hkind d eq_refl). }
  split; [exact Hrun |]. unfold post_telegram. rewrite Hrun. reflexivity.
Qed.

Lemma non_object_body_raises_witness :
  webhook sample_env sample_describe (world_completing (lit "Answer"))
    (lit "s3cret") {| body_json := Some (PyList []) |} []
  = (Raise AttributeError, [])
  /\ post_telegram sample_env sample_describe (world_completing (lit "Answer"))
       (lit "s3cret") {| body_json := Some (PyList []) |} []
     = ({| status := 500; content := None |}, []).
Proof.
  apply (non_object_body_raises sample_env sample_describe
           (world_completing (lit "Answer")) (lit "s3cret")
           {| body_json := Some (PyList []) |} [] (PyList [])).
  - reflexivity.
  - reflexivity.
  - intros d H. discriminate H.
Defined.

(** X14. A truthy selected message that is neither an object, a list
    nor a string (a number, [true]) makes the membership test of line
    110 raise [TypeError]: no call is issued. *)
Theorem non_container_message_raises env describe world secret req tr u msg :
  secret = WEBHOOK_SECRET env ->
  body_json req = Some u ->
  select_message u = Return msg ->
  truthy msg = true ->
  (forall d, msg <> PyDict d) ->
  (forall l, msg <> PyList l) ->
  (forall s, msg <> PyStr s) ->
  webhook env describe world secret req tr = (Raise TypeError, tr).
Proof.
  intros -> Hbody Hsel Htruthy Hdict Hlist Hstr.
  unfold webhook. rewrite pystr_eqb_refl, Hbody. cbn [parse_json]. run.
  rewrite Hsel, Htruthy. run.
  destruct msg; try reflexivity; exfalso.
  - exact (Hstr s eq_refl).
  - exact (Hlist l eq_refl).
  - exact (Hdict d eq_refl).
Qed.

Lemma non_container_message_raises_witness :
  webhook sample_env sample_describe (world_completing (lit "Answer"))
    (lit "s3cret") {| body_json := Some number_message_update |} []
  = (Raise TypeError, []).
Proof.
  apply (non_container_message_raises sample_env sample_describe
           (world_completing (lit "Answer")) (lit "s3cret")
           {| body_json := Some number_message_update |} []
           number_message_update (PyInt 5)).
  - reflexivity.
  - reflexivity.
  - vm_compute. reflexivity.
  - reflexivity.
  - intros d H. discriminate H.
  - intros l H. discriminate H.
  - intros s H. discriminate H.
Defined.

(* ------------------------------------------------------------------ *)
(** *** What a run of [webhook] can and cannot do *)

(** X15. The handler issues a call only for a request with the matching
    secret whose body is a well-formed text update: a run that extends
    the trace had such a request. *)
Theorem calls_only_for_text_updates env describe world secret req tr res tr' :
  webhook env describe world secret req tr = (res, tr') ->
  tr' <> tr ->
  secret = WEBHOOK_SECRET env
  /\ exists u chat_id mid t,
      body_json req = Some u /\ text_update u chat_id mid t.
Proof.
  intros Hrun Hgrew.
  destruct (webhook_cases env describe world secret req tr)
    as [[_ H] | [Hsecret [H | [[e H] | (u & chat_id & mid & t & Hb & Hu & _)]]]].
  - rewrite H in Hrun. injection Hrun as _ <-. contradiction.
  - rewrite H in Hrun. injection Hrun as _ <-. contradiction.
  - rewrite H in Hrun. injection Hrun as _ <-. contradiction.
  - split; [exact Hsecret |]. exists u, chat_id, mid, t. split; assumption.
Qed.

Lemma calls_only_for_text_updates_witness :
  lit "s3cret" = WEBHOOK_SECRET sample_env
  /\ exists u chat_id mid t,
      body_json sample_request = Some u /\ text_update u chat_id mid t.
Proof.
  apply (calls_only_for_text_updates sample_env sample_describe
           (world_completing (lit "Answer")) (lit "s3cret") sample_request []
           (Return ACK_OK)
           [gemini_call sample_env
              (rendered_prompt (strip (lit " What is photosynthesis? ")));
            send_call sample_env (PyInt 42) (lit "Answer") (PyInt 7)]).
  - vm_compute. reflexivity.
  - intro H. discriminate H.
Defined.

(** X16. Whatever the provider and the platform answer, a value the
    handler returns is the acknowledgment its secret check decides:
    [ACK_OK] for the matching secret, [ACK_BAD_SECRET] otherwise; no
    completion text or error detail reaches the webhook caller. *)
Theorem reply_decided_by_secret env describe world secret req tr v tr' :
  webhook env describe world secret req tr = (Return v, tr') ->
  v = (if pystr_eqb secret (WEBHOOK_SECRET env) then ACK_OK else ACK_BAD_SECRET).
Proof.
  intros Hrun.
  destruct (webhook_cases env describe world secret req tr)
    as [[Hneq H] | [Hsecret [H | [[e H] | (u & chat_id & mid & t & _ & _ & H)]]]].
  - rewrite (pystr_eqb_neq _ _ Hneq). congruence.
  - subst secret. rewrite pystr_eqb_refl. congruence.
  - congruence.
  - subst secret. rewrite pystr_eqb_refl.
    destruct (relay_last_call env describe world chat_id mid (strip t) tr)
      as (calls & c & _ & Hrelay).
    rewrite H, Hrelay in Hrun. injection Hrun as Hverdict _.
    destruct (world (tr ++ calls) c); congruence.
Qed.

Lemma reply_decided_by_secret_witness :
  ACK_OK
  = (if pystr_eqb (lit "s3cret") (WEBHOOK_SECRET sample_env)
     then ACK_OK else ACK_BAD_SECRET).
Proof.
  apply (reply_decided_by_secret sample_env sample_describe world_rate_limited
           (lit "s3cret") sample_request [] ACK_OK
           [gemini_call sample_env
              (rendered_prompt (strip (lit " What is photosynthesis? ")));
            send_call sample_env (PyInt 42)
              (lit "API error: " ++ str_int 429 ++ lit " – " ++ lit "rate limited")
              (PyInt 7)]).
  vm_compute. reflexivity.
Defined.

(** X17. For a well-formed text update, no failure of the provider
    leaves the handler: an exception that does is the transport failure
    of the last call issued, which is a send. *)
Theorem only_send_failure_escapes
  env describe world secret req tr u chat_id mid t e tr' :
  secret = WEBHOOK_SECRET env ->
  body_json req = Some u ->
  text_update u chat_id mid t ->
  webhook env describe world secret req tr = (Raise e, tr') ->
  exists calls c detail,
    e = TransportError detail
    /\ tr' = tr ++ calls ++ [c]
    /\ url c = send_url env
    /\ world (tr ++ calls) c = Fails detail.
Proof.
  intros Hsecret Hbody Hupdate Hrun.
  rewrite (webhook_on_text_update _ _ _ _ _ _ _ _ _ _ Hsecret Hbody Hupdate)
    in Hrun.
  destruct (relay_last_call env describe world chat_id mid (strip t) tr)
    as (calls & c & Hurl & Hrelay).
  rewrite Hrelay in Hrun. injection Hrun as Hverdict Htr.
  destruct (world (tr ++ calls) c) as [r | detail] eqn:Hlast;
    [discriminate Hverdict |].
  injection Hverdict as <-. exists calls, c, detail.
  repeat split; [symmetry; exact Htr | exact Hurl | exact Hlast].
Qed.

Lemma only_send_failure_escapes_witness :
  exists calls c detail,
    TransportError (lit "All connection attempts failed") = TransportError detail
    /\ [gemini_call sample_env
          (rendered_prompt (strip (lit " What is photosynthesis? ")));
        send_call sample_env (PyInt 42)
          (lit "Error: " ++ lit "All connection attempts failed") (PyInt 7)]
       = [] ++ calls ++ [c]
    /\ url c = send_url sample_env
    /\ world_offline ([] ++ calls) c = Fails detail.
Proof.
  apply (only_send_failure_escapes sample_env sample_describe world_offline
           (lit "s3cret") sample_request [] sample_update (PyInt 42) (PyInt 7)
           (lit " What is photosynthesis? ")).
  - reflexivity.
  - reflexivity.
  - exact sample_update_is_text_update.
  - vm_compute. reflexivity.
Defined.

(* ------------------------------------------------------------------ *)
(** *** The application over many requests *)

Lemma webhook_calls_known env describe world secret req tr :
  exists res calls,
    webhook env describe world secret req tr = (res, tr ++ calls)
    /\ Forall (known_call env) calls
    /\ List.length calls <= 3.
Proof.
  assert (Hnone : forall res,
             webhook env describe world secret req tr = (res, tr) ->
             exists res calls,
               webhook env describe world secret req tr = (res, tr ++ calls)
               /\ Forall (known_call env) calls /\ List.length calls <= 3).
  { intros res H. exists res, []. rewrite app_nil_r.
    split; [exact H |]. split; [constructor | cbn; lia]. }
  destruct (webhook_cases env describe world secret req tr)
    as [[_ H] | [_ [H | [[e H] | (u & chat_id & mid & t & _ & _ & H)]]]];
    try (eapply Hnone; exact H).
  rewrite H.
  assert (Hg : known_call env (gemini_call env (rendered_prompt (strip t))))
    by (left; eexists; reflexivity).
  assert (Hs : forall txt, known_call env (send_call env chat_id txt mid))
    by (intros txt; right; eexists _, _, _; reflexivity).
  destruct (relay_calls env describe world chat_id mid (strip t) tr)
    as (res & txt & [Hrun | (detail & _ & Hrun)]); rewrite Hrun.
  - eexists _, _. split; [reflexivity |].
    split; [| cbn; lia].
    repeat (apply Forall_cons; [first [exact Hg | apply Hs] |]).
    apply Forall_nil.
  - eexists _, _. split; [reflexivity |].
    split; [| cbn; lia].
    repeat (apply Forall_cons; [first [exact Hg | apply Hs] |]).
    apply Forall_nil.
Qed.

(** X18. Serving any sequence of requests only appends to the trace,
    answers every request, and issues at most three calls per request,
    each of them the completion request or a send of this
    application. *)
Theorem serve_calls_bounded env describe world reqs tr :
  exists calls,
    snd (serve env describe world reqs tr) = tr ++ calls
    /\ Forall (known_call env) calls
    /\ List.length calls <= 3 * List.length reqs
    /\ List.length (fst (serve env describe world reqs tr)) = List.length reqs.
Proof.
  revert tr. induction reqs as [| [secret req] reqs IH]; intros tr.
  - exists []. cbn. rewrite app_nil_r. repeat split; [constructor | lia].
  - cbn [serve]. unfold post_telegram.
    destruct (webhook_calls_known env describe world secret req tr)
      as (res & calls1 & Hrun & Hknown1 & Hlen1).
    rewrite Hrun.
    destruct (IH (tr ++ calls1)) as (calls2 & Htr & Hknown2 & Hlen2 & Hreplies).
    exists (calls1 ++ calls2).
    destruct res as [v | e];
      destruct (serve env describe world reqs (tr ++ calls1)) as [replies tr2];
      cbn [fst snd] in *; subst tr2;
      (split; [rewrite app_assoc; reflexivity |]);
      (split; [apply Forall_app; split; assumption |]);
      rewrite length_app; cbn [List.length]; lia.
Qed.

(** X19. Whatever requests are served, every call goes to the provider
    URL, with the API key in its [x-goog-api-key] header, or to the send
    URL of the bot, with no header at all; the two URLs differ, so the
    key header is attached to calls to the provider only.  (What the
    text of a send holds is a different matter: see X9.) *)
Theorem key_header_only_on_provider_calls env describe world reqs tr :
  exists calls,
    snd (serve env describe world reqs tr) = tr ++ calls
    /\ Forall (fun c =>
                 (url c = GEMINI_URL
                  /\ dict_get (headers c) (lit "x-goog-api-key")
                     = Some (GEMINI_KEY env))
                 \/ (url c = send_url env /\ headers c = []))
         calls
    /\ GEMINI_URL <> send_url env.
Proof.
  assert (Hurls : GEMINI_URL <> send_url env).
  { unfold send_url, TELEGRAM_API. intros H.
    apply (f_equal (fun l => nth 8 l 0%N)) in H.
    vm_compute in H. discriminate H. }
  revert tr. induction reqs as [| [secret req] reqs IH]; intros tr.
  - exists []. cbn. rewrite app_nil_r. repeat split; [constructor | exact Hurls].
  - cbn [serve]. unfold post_telegram.
    destruct (webhook_calls_known env describe world secret req tr)
      as (res & calls1 & Hrun & Hknown1 & _).
    rewrite Hrun.
    destruct (IH (tr ++ calls1)) as (calls2 & Htr & Hsafe2 & _).
    exists (calls1 ++ calls2).
    split; [| split; [| exact Hurls]].
    + destruct res as [v | e];
        destruct (serve env describe world reqs (tr ++ calls1)) as [replies tr2];
        cbn [fst snd] in *; subst tr2; rewrite app_assoc; reflexivity.
    + apply Forall_app. split; [| exact Hsafe2].
      eapply Forall_impl; [| exact Hknown1].
      intros c [[p ->] | (chat_id & txt & reply_to & ->)].
      * left. split; reflexivity.
      * right. split; [apply send_call_url | reflexivity].
Qed.

(* ------------------------------------------------------------------ *)
(** *** The two variants of an update (line 109) *)

Lemma selected_fields_give_text_update u m chat_id mid t :
  select_message u = Return m ->
  message_fields m chat_id mid t ->
  text_update u chat_id mid t.
Proof.
  intros Hsel (msg & chat & -> & Ht & Hc & Hid & Hmid).
  exists msg, chat. repeat split; assumption.
Qed.

(** C10. When an update has both variants and [message] is truthy, the
    handler processes [message] and ignores [edited_message]: it behaves
    as on the update without [edited_message]; when [message] is a text
    message it is the text of [message] that goes into the provider's
    prompt and the chat id and message id of [message] that the send
    carries, and when [message] has no text nothing is issued, whatever
    [edited_message] holds.  When [message] is absent or falsy, the
    handler processes [edited_message] in the same way. *)
Theorem message_preferred_over_edited env describe world secret tr u e :
  dict_get u (lit "edited_message") = Some e ->
  (forall m,
      dict_get u (lit "message") = Some m -> truthy m = true ->
      select_message (PyDict u) = Return m
      /\ webhook env describe world secret {| body_json := Some (PyDict u) |} tr
         = webhook env describe world secret
             {| body_json := Some (PyDict [(lit "message", m)]) |} tr
      /\ (secret = WEBHOOK_SECRET env ->
          (forall chat_id mid t,
              message_fields m chat_id mid t ->
              exists res txt later,
                webhook env describe world secret
                  {| body_json := Some (PyDict u) |} tr
                = (res, tr ++ gemini_call env (rendered_prompt (strip t))
                              :: send_call env chat_id txt mid :: later))
          /\ (forall msg,
                 m = PyDict msg -> dict_get msg (lit "text") = None ->
                 webhook env describe world secret
                   {| body_json := Some (PyDict u) |} tr
                 = (Return ACK_OK, tr))))
  /\ (dict_get u (lit "message") = None
      \/ (exists m, dict_get u (lit "message") = Some m /\ truthy m = false) ->
      select_message (PyDict u) = Return e
      /\ webhook env describe world secret {| body_json := Some (PyDict u) |} tr
         = webhook env describe world secret
             {| body_json := Some (PyDict [(lit "edited_message", e)]) |} tr
      /\ (secret = WEBHOOK_SECRET env ->
          forall chat_id mid t,
            message_fields e chat_id mid t ->
            exists res txt later,
              webhook env describe world secret
                {| body_json := Some (PyDict u) |} tr
              = (res, tr ++ gemini_call env (rendered_prompt (strip t))
                            :: send_call env chat_id txt mid :: later))).
Proof.
  intros He.
  assert (Hrelayed : forall v chat_id mid t,
             select_message (PyDict u) = Return v ->
             secret = WEBHOOK_SECRET env ->
             message_fields v chat_id mid t ->
             exists res txt later,
               webhook env describe world secret
                 {| body_json := Some (PyDict u) |} tr
               = (res, tr ++ gemini_call env (rendered_prompt (strip t))
                             :: send_call env chat_id txt mid :: later)).
  { intros v chat_id mid t Hsel Hsecret Hfields.
    rewrite (webhook_on_text_update env describe world secret
               {| body_json := Some (PyDict u) |} tr (PyDict u) chat_id mid t
               Hsecret eq_refl
               (selected_fields_give_text_update _ _ _ _ _ Hsel Hfields)).
    destruct (relay_calls env describe world chat_id mid (strip t) tr)
      as (res & txt & [Hrun | (detail & _ & Hrun)]);
      rewrite Hrun; eexists _, _, _; reflexivity. }
  split.
  - intros m Hm Htruthy.
    assert (Hsel : select_message (PyDict u) = Return m).
    { unfold select_message, py_get. rewrite Hm. run. rewrite Htruthy.
      reflexivity. }
    split; [exact Hsel |]. split.
    + apply webhook_reads_selected_message. rewrite Hsel.
      unfold select_message, py_get. cbn [dict_get]. rewrite pystr_eqb_refl.
      run. rewrite Htruthy. reflexivity.
    + intros Hsecret. split.
      * intros chat_id mid t Hfields.
        exact (Hrelayed m chat_id mid t Hsel Hsecret Hfields).
      * intros msg -> Hnotext.
        apply (webhook_without_text env describe world secret
                 {| body_json := Some (PyDict u) |} tr (PyDict u) (PyDict msg)
                 Hsecret eq_refl Hsel).
        right. exists msg. split; [reflexivity | exact Hnotext].
  - intros Hcase.
    assert (Hsel : select_message (PyDict u) = Return e).
    { unfold select_message, py_get.
      destruct Hcase as [Hm | (m & Hm & Hfalsy)]; rewrite Hm; run.
      - cbn [truthy]. rewrite He. reflexivity.
      - rewrite Hfalsy, He. reflexivity. }
    split; [exact Hsel |]. split.
    + apply webhook_reads_selected_message. rewrite Hsel.
      unfold select_message, py_get. cbn [dict_get].
      rewrite edited_key_differs. run. cbn [truthy dict_get].
      rewrite pystr_eqb_refl. reflexivity.
    + intros Hsecret chat_id mid t Hfields.
      exact (Hrelayed e chat_id mid t Hsel Hsecret Hfields).
Qed.

Lemma message_preferred_over_edited_witness :
  exists res txt later,
    webhook sample_env sample_describe (world_completing (lit "Answer"))
      (lit "s3cret") {| body_json := Some both_variants_update |} []
    = (res, [] ++ gemini_call sample_env (rendered_prompt (strip (lit "new")))
                  :: send_call sample_env (PyInt 42) txt (PyInt 7) :: later).
Proof.
  apply (proj1
           (proj2 (proj2
              (proj1 (message_preferred_over_edited sample_env sample_describe
                        (world_completing (lit "Answer")) (lit "s3cret") []
                        [(lit "message", text_message 42 7 (lit "new"));
                         (lit "edited_message", text_message 42 5 (lit "old"))]
                        (text_message 42 5 (lit "old")) eq_refl)
                 (text_message 42 7 (lit "new")) eq_refl eq_refl))
              eq_refl)
           (PyInt 42) (PyInt 7) (lit "new")).
  exists [(lit "message_id", PyInt 7);
          (lit "chat", PyDict [(lit "id", PyInt 42);
                               (lit "type", PyStr (lit "private"))]);
          (lit "text", PyStr (lit "new"))],
    [(lit "id", PyInt 42); (lit "type", PyStr (lit "private"))].
  repeat split; vm_compute; reflexivity.
Defined.
